(** * Trajectory conversion between tropter and Muscollo, and the model factory

    A shallow embedding of
    - [src/Muscollo/Muscollo/tropter/TropterProblem.cpp]: the two conversions
      [convertIterateTropterToMuco] and [convertToTropterIterate] of
      [MucoTropterSolver::TropterProblemBase<T>];
    - [src/Moco/Moco/Components/ModelFactory.h]: the inline factories of
      [ModelFactory].

    Numbers of type [double] are only ever copied by this code, so the
    development is parametric in the type [V] of matrix entries.  Container
    sizes are natural numbers and the casts [(int)x.size()] are exact; the
    signed member [m_mpSum] and the difference [numDerivatives] are in [Z]. *)

From Stdlib Require Import ZArith String.
From stdpp Require Import base list.

Open Scope nat_scope.

(** ** Outcomes of a run *)

Inductive outcome (A : Type) : Type :=
| Ret (a : A)       (* normal return *)
| Throw             (* std::length_error out of a std::vector constructor *)
| AssertFailed      (* assert(...) failed *)
| Undefined.        (* read or write outside a container *)
Arguments Ret {A} a.
Arguments Throw {A}.
Arguments AssertFailed {A}.
Arguments Undefined {A}.

(** ** State and error monad

    A computation runs in a world [W] (the objects that outlive the call) and
    gives an outcome together with the world it leaves behind. *)

Definition M (W A : Type) : Type := W -> outcome A * W.

Definition ret {W A} (a : A) : M W A := fun w => (Ret a, w).

Definition bind {W A B} (m : M W A) (f : A -> M W B) : M W B :=
  fun w =>
    match m w with
    | (Ret a, w') => f a w'
    | (Throw, w') => (Throw, w')
    | (AssertFailed, w') => (AssertFailed, w')
    | (Undefined, w') => (Undefined, w')
    end.

Definition gets {W A} (f : W -> A) : M W A := fun w => (Ret (f w), w).

Definition modify {W} (f : W -> W) : M W unit := fun w => (Ret tt, f w).

Definition raise {W A} (e : outcome A) : M W A := fun w => (e, w).

(** [assert(b)] with assertions enabled. *)
Definition assert {W} (b : bool) : M W unit :=
  if b then ret tt else raise AssertFailed.

(** A partial library operation: [None] is undefined behaviour.  The run is
    followed no further: what a compiled program goes on to do after a read
    or write outside a container is not modelled. *)
Definition defined {W A} (o : option A) : M W A :=
  match o with
  | Some a => ret a
  | None => raise Undefined
  end.

Declare Scope conv_scope.
Delimit Scope conv_scope with conv.
Notation "x <- m ;; k" := (bind m (fun x => k))
  (at level 100, m at next level, right associativity) : conv_scope.
Notation "m ;; k" := (bind m (fun _ => k))
  (at level 100, right associativity) : conv_scope.
Open Scope conv_scope.

(** [for (int i = 0; i < n; ++i) body], threading the local [a]. *)
Fixpoint foldM {W A B} (body : B -> A -> M W A) (l : list B) (a : A) : M W A :=
  match l with
  | [] => ret a
  | b :: l' => a' <- body b a ;; foldM body l' a'
  end.

Definition for_loop {W A} (n : nat) (body : nat -> A -> M W A) (a : A) : M W A :=
  foldM body (seq 0 n) a.

(** ** Dense matrices

    [SimTK::Matrix] and [Eigen::MatrixXd] both keep their entries in one
    column-major block: entry [(i, j)] of a matrix with [nrow] rows sits at
    offset [j * nrow + i]. *)

Record Matrix (V : Type) : Type := mkMatrix {
  nrow : nat;
  ncol : nat;
  elts : list V
}.
Arguments mkMatrix {V} nrow ncol elts.
Arguments nrow {V} m.
Arguments ncol {V} m.
Arguments elts {V} m.

Section MatrixOps.
Context {V : Type}.
(** The content of freshly allocated storage. *)
Variable uninit : V.

Definition offset (m : Matrix V) (i j : nat) : nat := j * nrow m + i.

(** [m(i, j)] as an rvalue; outside the matrix it is undefined. *)
Definition elem (m : Matrix V) (i j : nat) : option V :=
  if (i <? nrow m) && (j <? ncol m) then elts m !! offset m i j else None.

(** [m(i, j) = v]. *)
Definition store (m : Matrix V) (i j : nat) (v : V) : option (Matrix V) :=
  if (i <? nrow m) && (j <? ncol m) && (offset m i j <? length (elts m))
  then Some (mkMatrix (nrow m) (ncol m) (<[offset m i j := v]> (elts m)))
  else None.

(** The entry at [(i, j)] of the storage, for use where it is in range. *)
Definition cell (m : Matrix V) (i j : nat) : V :=
  default uninit (elts m !! offset m i j).

(** A default-constructed matrix: 0 x 0. *)
Definition empty_matrix : Matrix V := mkMatrix 0 0 [].

(** [m.resize(r, c)] on a default-constructed matrix. *)
Definition resize (r c : nat) : Matrix V :=
  mkMatrix r c (replicate (r * c) uninit).

(** The [r] x [c] matrix whose entry [(i, j)] is [f i j]. *)
Definition tabulate (r c : nat) (f : nat -> nat -> V) : list V :=
  (fun k => f (k mod r) (k / r)) <$> seq 0 (r * c).

(** [Eigen::Map<const MatrixXd>(p, r, c)]: the [r * c] values at [p] seen
    as a column-major [r] x [c] matrix. *)
Definition Map (p : list V) (r c : nat) : option (Matrix V) :=
  if r * c <=? length p then Some (mkMatrix r c (take (r * c) p)) else None.

(** [m.transpose()]. *)
Definition transpose (m : Matrix V) : Matrix V :=
  mkMatrix (ncol m) (nrow m) (tabulate (ncol m) (nrow m) (fun i j => cell m j i)).

(** [dst.middleRows(r0, src.rows()) = src]; [topRows(n)] is
    [middleRows(0, n)] and [bottomRows(n)] is [middleRows(rows() - n, n)]. *)
Definition assign_rows (dst : Matrix V) (r0 : nat) (src : Matrix V) : option (Matrix V) :=
  if (r0 + nrow src <=? nrow dst) && (ncol src =? ncol dst)
  then Some (mkMatrix (nrow dst) (ncol dst)
               (tabulate (nrow dst) (ncol dst)
                  (fun i j => if (r0 <=? i) && (i <? r0 + nrow src)
                              then cell src (i - r0) j else cell dst i j)))
  else None.

(** [std::copy_n(v.begin() + start, n, out.begin())]. *)
Definition copy_n {A} (v : list A) (start n : nat) : option (list A) :=
  if start + n <=? length v then Some (take n (drop start v)) else None.

(** The storage of a matrix agrees with its shape. *)
Definition shaped (m : Matrix V) (r c : nat) : Prop :=
  nrow m = r /\ ncol m = c /\ length (elts m) = r * c.

End MatrixOps.

(** The cast [(int)v.size()]; it is exact, sizes being below [2^31]. *)
Definition int_of_size (n : nat) : Z := Z.of_nat n.

(** ** The two trajectory records *)

(** [tropter::Iterate] (and [tropter::Solution], of which the conversion reads
    the same members): variable-major matrices, one row per channel and one
    column per time sample. *)
Module tropter.
Record Iterate (V : Type) : Type := mkIterate {
  time : list V;
  state_names : list string;
  control_names : list string;
  adjunct_names : list string;
  parameter_names : list string;
  states : Matrix V;
  controls : Matrix V;
  adjuncts : Matrix V;
  parameters : list V
}.
Arguments mkIterate {V}.
Arguments time {V} i.
Arguments state_names {V} i.
Arguments control_names {V} i.
Arguments adjunct_names {V} i.
Arguments parameter_names {V} i.
Arguments states {V} i.
Arguments controls {V} i.
Arguments adjuncts {V} i.
Arguments parameters {V} i.

(** [tropter::Iterate tropIter;] *)
Definition default {V} : Iterate V :=
  mkIterate [] [] [] [] [] (mkMatrix 0 0 []) (mkMatrix 0 0 []) (mkMatrix 0 0 []) [].
End tropter.

(** [OpenSim::MucoIterate] (and [MucoSolution]): time-major matrices, one row
    per time sample and one column per channel.  The fields are named after
    the getters the conversion calls; the constructor takes them in the order
    of the braced list at the end of [convertIterateTropterToMuco]. *)
Record MucoIterate (V : Type) : Type := mkMucoIterate {
  getTime : list V;
  getStateNames : list string;
  getControlNames : list string;
  getMultiplierNames : list string;
  getDerivativeNames : list string;
  getParameterNames : list string;
  getStatesTrajectory : Matrix V;
  getControlsTrajectory : Matrix V;
  getMultipliersTrajectory : Matrix V;
  getDerivativesTrajectory : Matrix V;
  getParameters : list V
}.
Arguments mkMucoIterate {V}.
Arguments getTime {V} m.
Arguments getStateNames {V} m.
Arguments getControlNames {V} m.
Arguments getMultiplierNames {V} m.
Arguments getDerivativeNames {V} m.
Arguments getParameterNames {V} m.
Arguments getStatesTrajectory {V} m.
Arguments getControlsTrajectory {V} m.
Arguments getMultipliersTrajectory {V} m.
Arguments getDerivativesTrajectory {V} m.
Arguments getParameters {V} m.

(** ** The solver object and the world of a call

    Of [TropterProblemBase<T>] the conversions read the member [m_mpSum] only;
    [m_rest] stands for all its other members. *)
Record TropterProblemBase (R : Type) : Type := mkProblem {
  m_mpSum : Z;
  m_rest : R
}.
Arguments mkProblem {R}.
Arguments m_mpSum {R} t.
Arguments m_rest {R} t.

(** A call sees the object [this] points to and the object its reference
    parameter is bound to. *)
Record World (R I : Type) : Type := mkWorld {
  this : TropterProblemBase R;
  arg : I
}.
Arguments mkWorld {R I}.
Arguments this {R I} w.
Arguments arg {R I} w.

Section Conversions.
Context {V R : Type}.
Variable uninit : V.
(** [MucoIterate::empty()], defined outside this translation unit. *)
Variable empty : MucoIterate V -> bool.

(** Reading through [this->] and through the reference parameter. *)
Definition read_this {I A} (f : TropterProblemBase R -> A) : M (World R I) A :=
  gets (fun w => f (this w)).
Definition read_arg {I A} (f : I -> A) : M (World R I) A :=
  gets (fun w => f (arg w)).
(** [src(i, j)] for a matrix member [src] of the parameter. *)
Definition read_elem {I} (src : I -> Matrix V) (i j : nat) : M (World R I) V :=
  o <- read_arg (fun a => elem (src a) i j) ;; defined o.
(** [dst(i, j) = v] on a local matrix. *)
Definition write_elem {I} (dst : Matrix V) (i j : nat) (v : V) : M (World R I) (Matrix V) :=
  defined (store dst i j v).

(** The body of the copy loops: [dst(itime, i) = src(row i, itime)]. *)
Definition copy_entry {I} (src : I -> Matrix V) (row : nat -> nat)
    (itime i : nat) (dst : Matrix V) : M (World R I) (Matrix V) :=
  v <- read_elem src (row i) itime ;; write_elem dst itime i v.

(** [std::vector<std::string> v(n)] for an [int n]: a negative [n] becomes
    a size above [max_size()].  A failed allocation for a large [n] is not
    modelled. *)
Definition vector_ctor {I} (n : Z) : M (World R I) unit :=
  if (n <? 0)%Z then raise Throw else ret tt.

(** [numDerivatives] of [convertIterateTropterToMuco], lines 37-38. *)
Definition numDerivatives_of (tropSol : tropter.Iterate V) (numMultipliers : Z) : Z :=
  (int_of_size (length (tropter.adjunct_names tropSol)) - numMultipliers)%Z.

(** Lines 24-103. *)
Definition convertIterateTropterToMuco
  : M (World R (tropter.Iterate V)) (MucoIterate V) :=
  (* 26-29 *)
  tropTime <- read_arg tropter.time ;;
  let time := tropTime in
  state_names <- read_arg tropter.state_names ;;
  control_names <- read_arg tropter.control_names ;;
  (* 31-35 *)
  numMultipliers <- read_this m_mpSum ;;
  vector_ctor numMultipliers ;;
  adjunct_names <- read_arg tropter.adjunct_names ;;
  multiplier_names <- defined (copy_n adjunct_names 0 (Z.to_nat numMultipliers)) ;;
  (* 37-42 *)
  numDerivatives <- read_arg (fun tropSol => numDerivatives_of tropSol numMultipliers) ;;
  assert (0 <=? numDerivatives)%Z ;;
  vector_ctor numDerivatives ;;
  derivative_names <-
    defined (copy_n adjunct_names (Z.to_nat numMultipliers) (Z.to_nat numDerivatives)) ;;
  (* 44-47 *)
  parameter_names <- read_arg tropter.parameter_names ;;
  let numTimes := length time in
  let numStates := length state_names in
  (* 49-57 *)
  states <-
    (if numStates =? 0 then ret empty_matrix
     else for_loop numTimes (fun itime =>
            for_loop numStates (fun istate states =>
              v <- read_elem tropter.states istate itime ;;
              write_elem states itime istate v))
            (resize uninit numTimes numStates)) ;;
  (* 58-74 *)
  let numControls := length control_names in
  controls <-
    (if numControls =? 0 then ret empty_matrix
     else for_loop numTimes (fun itime =>
            for_loop numControls (fun icontrol controls =>
              v <- read_elem tropter.controls icontrol itime ;;
              write_elem controls itime icontrol v))
            (resize uninit numTimes numControls)) ;;
  (* 75-85 *)
  multipliers <-
    (if (numMultipliers =? 0)%Z then ret empty_matrix
     else for_loop numTimes (fun itime =>
            for_loop (Z.to_nat numMultipliers) (fun imultiplier multipliers =>
              v <- read_elem tropter.adjuncts imultiplier itime ;;
              write_elem multipliers itime imultiplier v))
            (resize uninit numTimes (Z.to_nat numMultipliers))) ;;
  (* 86-96 *)
  derivatives <-
    (if (numDerivatives =? 0)%Z then ret empty_matrix
     else for_loop numTimes (fun itime =>
            for_loop (Z.to_nat numDerivatives) (fun iderivative derivatives =>
              v <- read_elem tropter.adjuncts
                     (iderivative + Z.to_nat numMultipliers) itime ;;
              write_elem derivatives itime iderivative v))
            (resize uninit numTimes (Z.to_nat numDerivatives))) ;;
  (* 97-99: the RowVector takes [numParameters] values from [parameters.data()] *)
  let numParameters := length parameter_names in
  tropParameters <- read_arg tropter.parameters ;;
  parameters <- defined (copy_n tropParameters 0 numParameters) ;;
  (* 100-102 *)
  ret (mkMucoIterate time state_names control_names multiplier_names
         derivative_names parameter_names
         states controls multipliers derivatives parameters).

(** Lines 105-119. *)
Definition convertToMucoIterate := convertIterateTropterToMuco.
Definition convertToMucoSolution := convertIterateTropterToMuco.

(** Lines 121-186. *)
Definition convertToTropterIterate
  : M (World R (MucoIterate V)) (tropter.Iterate V) :=
  (* 124-125 *)
  let tropIter := tropter.default in
  isEmpty <- read_arg empty ;;
  if (isEmpty : bool) then ret tropIter else
  (* 132-133: the Map takes all [time.size()] values *)
  time <- read_arg getTime ;;
  (* 135-141 *)
  state_names <- read_arg getStateNames ;;
  control_names <- read_arg getControlNames ;;
  multiplierNames <- read_arg getMultiplierNames ;;
  derivativeNames <- read_arg getDerivativeNames ;;
  let adjunct_names := multiplierNames ++ derivativeNames in
  parameter_names <- read_arg getParameterNames ;;
  (* 143-148 *)
  let numTimes := length time in
  let numStates := length state_names in
  let numControls := length control_names in
  let numMultipliers := length multiplierNames in
  let numDerivatives := length derivativeNames in
  let numParameters := length parameter_names in
  (* 156-161 *)
  states <-
    (if numStates =? 0 then ret (resize uninit numStates numTimes)
     else m <- read_arg (fun mucoIter =>
                 Map (elts (getStatesTrajectory mucoIter)) numTimes numStates) ;;
          m <- defined m ;; ret (transpose uninit m)) ;;
  (* 162-167 *)
  controls <-
    (if numControls =? 0 then ret (resize uninit numControls numTimes)
     else m <- read_arg (fun mucoIter =>
                 Map (elts (getControlsTrajectory mucoIter)) numTimes numControls) ;;
          m <- defined m ;; ret (transpose uninit m)) ;;
  (* 169-173 *)
  let adjuncts := resize uninit (numMultipliers + numDerivatives) numTimes in
  adjuncts <-
    (if numMultipliers =? 0 then ret adjuncts
     else m <- read_arg (fun mucoIter =>
                 Map (elts (getMultipliersTrajectory mucoIter)) numTimes numMultipliers) ;;
          m <- defined m ;;
          defined (assign_rows uninit adjuncts 0 (transpose uninit m))) ;;
  (* 174-177 *)
  adjuncts <-
    (if numDerivatives =? 0 then ret adjuncts
     else m <- read_arg (fun mucoIter =>
                 Map (elts (getDerivativesTrajectory mucoIter)) numTimes numDerivatives) ;;
          m <- defined m ;;
          defined (assign_rows uninit adjuncts (nrow adjuncts - numDerivatives)
                     (transpose uninit m))) ;;
  (* 179-184: the Map takes [numParameters] values from [&parameters(0)] *)
  parameters <-
    (if numParameters =? 0 then ret []
     else p <- read_arg (fun mucoIter => copy_n (getParameters mucoIter) 0 numParameters) ;;
          defined p) ;;
  (* 185 *)
  ret (tropter.mkIterate time state_names control_names adjunct_names
         parameter_names states controls adjuncts parameters).

End Conversions.

(** ** Computations that leave the world as they found it *)

Definition readonly {W A} (m : M W A) : Prop := forall w, snd (m w) = w.

(** ** Computations in which no assertion fails *)

Definition assert_free {W A} (m : M W A) : Prop :=
  forall w, fst (m w) <> AssertFailed.

(** ** The inputs the conversions are written for *)

Section WellFormed.
Context {V : Type}.

(** A tropter iterate: every matrix has one row per channel name and one
    column per time sample, and there is one value per parameter name. *)
Definition tropter_wf (tropSol : tropter.Iterate V) : Prop :=
  let numTimes := length (tropter.time tropSol) in
  shaped (tropter.states tropSol) (length (tropter.state_names tropSol)) numTimes /\
  shaped (tropter.controls tropSol) (length (tropter.control_names tropSol)) numTimes /\
  shaped (tropter.adjuncts tropSol) (length (tropter.adjunct_names tropSol)) numTimes /\
  length (tropter.parameters tropSol) = length (tropter.parameter_names tropSol).

(** A block of [numChannels] channels in the Muscollo layout: one column
    per channel, and one row per time sample unless there is no channel. *)
Definition channel_block (m : Matrix V) (numTimes numChannels : nat) : Prop :=
  ncol m = numChannels /\
  length (elts m) = nrow m * ncol m /\
  (numChannels <> 0 -> nrow m = numTimes).

Definition Muco_wf (mucoIter : MucoIterate V) : Prop :=
  let numTimes := length (getTime mucoIter) in
  channel_block (getStatesTrajectory mucoIter) numTimes
    (length (getStateNames mucoIter)) /\
  channel_block (getControlsTrajectory mucoIter) numTimes
    (length (getControlNames mucoIter)) /\
  channel_block (getMultipliersTrajectory mucoIter) numTimes
    (length (getMultiplierNames mucoIter)) /\
  channel_block (getDerivativesTrajectory mucoIter) numTimes
    (length (getDerivativeNames mucoIter)) /\
  length (getParameters mucoIter) = length (getParameterNames mucoIter).

End WellFormed.

(** ** The inputs on which the conversions read inside their containers *)

Section Readable.
Context {V : Type}.

(** The entries [(i, itime)], [i < n] and [itime < numTimes], exist in [m]. *)
Definition block_readable (m : Matrix V) (n numTimes : nat) : Prop :=
  forall itime i, itime < numTimes -> i < n -> is_Some (elem m i itime).

(** What [convertIterateTropterToMuco] reads of [tropSol] for a problem with
    [mpSum] multipliers is there: [mpSum] adjunct names, a value per
    parameter name, and a matrix entry per channel name and time sample. *)
Definition tropter_readable (mpSum : Z) (tropSol : tropter.Iterate V) : Prop :=
  let numTimes := length (tropter.time tropSol) in
  (0 <= mpSum <= Z.of_nat (length (tropter.adjunct_names tropSol)))%Z /\
  block_readable (tropter.states tropSol)
    (length (tropter.state_names tropSol)) numTimes /\
  block_readable (tropter.controls tropSol)
    (length (tropter.control_names tropSol)) numTimes /\
  block_readable (tropter.adjuncts tropSol)
    (length (tropter.adjunct_names tropSol)) numTimes /\
  length (tropter.parameter_names tropSol) <= length (tropter.parameters tropSol).

(** What [convertToTropterIterate] maps of [mucoIter] is there: the storage
    of each matrix holds [numTimes] values per channel name, and there is a
    value per parameter name. *)
Definition Muco_readable (mucoIter : MucoIterate V) : Prop :=
  let numTimes := length (getTime mucoIter) in
  numTimes * length (getStateNames mucoIter)
    <= length (elts (getStatesTrajectory mucoIter)) /\
  numTimes * length (getControlNames mucoIter)
    <= length (elts (getControlsTrajectory mucoIter)) /\
  numTimes * length (getMultiplierNames mucoIter)
    <= length (elts (getMultipliersTrajectory mucoIter)) /\
  numTimes * length (getDerivativeNames mucoIter)
    <= length (elts (getDerivativesTrajectory mucoIter)) /\
  length (getParameterNames mucoIter) <= length (getParameters mucoIter).

End Readable.

(** ** Comparing a matrix with the one it came from

    [m'] has the entries of [m]: the same storage, the same number of
    columns and the same number of rows, except that a matrix without a
    column comes back without a row. *)
Definition same_entries {V} (m m' : Matrix V) : Prop :=
  elts m' = elts m /\ ncol m' = ncol m /\
  nrow m' = (if ncol m =? 0 then 0 else nrow m).

(** [m(i, j)] and [m'(i', j')] both lie inside their matrix and hold the
    same value. *)
Definition same_entry {V} (m : Matrix V) (i j : nat) (m' : Matrix V) (i' j' : nat) : Prop :=
  exists v, elem m i j = Some v /\ elem m' i' j' = Some v.

(** The matrix the Muscollo side builds for [n] channels: left as
    default-constructed when there is no channel, and otherwise resized to
    [numTimes] x [n]. *)
Definition built_block {V} (m : Matrix V) (numTimes n : nat) : Prop :=
  if n =? 0 then m = empty_matrix else nrow m = numTimes /\ ncol m = n.

(** ** The model factory

    [ModelFactory.h] declares [createNLinkPendulum] and defines it elsewhere;
    the factory is a parameter here.  The header defines one function inline,
    [createDoublePendulum]: the text of [createPendulum] is the tail of the
    [///] comment line before it. *)
Section ModelFactory.
Variable Model : Type.
Variable createNLinkPendulum : Z -> Model.

Definition createDoublePendulum : Model := createNLinkPendulum 2.

(** The member functions the class declares, in the order of the header. *)
Definition ModelFactory_members : list string :=
  [ "createNLinkPendulum"; "createDoublePendulum"; "createPlanarPointMass";
    "createBrachistochrone"; "replaceMusclesWithPathActuators"; "removeMuscles";
    "replaceJointWithWeldJoint"; "createReserveActuators" ]%string.

(** The call [ModelFactory::name()] of a member the header defines inline. *)
Definition ModelFactory_inline (name : string) : option Model :=
  if String.eqb name "createDoublePendulum" then Some createDoublePendulum
  else None.
End ModelFactory.

(** ** Sample trajectories

    Two time samples, states [x] and [v], control [u], multiplier [lambda],
    derivative [xdot] and parameter [p], in both layouts. *)
Module Sample.
Open Scope Z_scope.
Open Scope string_scope.

Definition problem : TropterProblemBase unit := mkProblem 1 tt.

Definition tropIter : tropter.Iterate Z :=
  tropter.mkIterate [0; 5] ["x"; "v"] ["u"] ["lambda"; "xdot"] ["p"]
    (mkMatrix 2 2 [10; 20; 11; 21])
    (mkMatrix 1 2 [30; 31])
    (mkMatrix 2 2 [40; 50; 41; 51])
    [7].

Definition mucoIter : MucoIterate Z :=
  mkMucoIterate [0; 5] ["x"; "v"] ["u"] ["lambda"] ["xdot"] ["p"]
    (mkMatrix 2 2 [10; 11; 20; 21])
    (mkMatrix 2 1 [30; 31])
    (mkMatrix 2 1 [40; 41])
    (mkMatrix 2 1 [50; 51])
    [7].

(** A stand-in for [MucoIterate::empty()]: no time samples. *)
Definition no_samples (it : MucoIterate Z) : bool :=
  Nat.eqb (length (getTime it)) 0.

(** The same trajectory with the state [x] alone. *)
Definition bare_problem : TropterProblemBase unit := mkProblem 0 tt.

Definition bare_tropIter : tropter.Iterate Z :=
  tropter.mkIterate [0; 5] ["x"] [] [] []
    (mkMatrix 1 2 [10; 11]) (mkMatrix 0 2 []) (mkMatrix 0 2 []) [].

Definition bare_mucoIter : MucoIterate Z :=
  mkMucoIterate [0; 5] ["x"] [] [] [] []
    (mkMatrix 2 1 [10; 11]) (mkMatrix 0 0 []) (mkMatrix 0 0 []) (mkMatrix 0 0 []) [].

(** An iterate that [no_samples] takes for empty. *)
Definition blank_mucoIter : MucoIterate Z :=
  mkMucoIterate [] ["x"] [] [] [] []
    (mkMatrix 0 1 []) (mkMatrix 0 0 []) (mkMatrix 0 0 []) (mkMatrix 0 0 []) [].
End Sample.

(** ** More sample trajectories *)
Module Sample2.
Open Scope Z_scope.
Open Scope string_scope.

(** A problem whose multiplier count is negative, and one that counts more
    multipliers than [Sample.tropIter] has adjuncts. *)
Definition negative_problem : TropterProblemBase unit := mkProblem (-1) tt.
Definition greedy_problem : TropterProblemBase unit := mkProblem 3 tt.

(** [Sample.tropIter] with a states matrix of three rows and three columns,
    one more than there are state names and time samples, and with two
    parameter values for its one parameter name. *)
Definition wide_tropIter : tropter.Iterate Z :=
  tropter.mkIterate [0; 5] ["x"; "v"] ["u"] ["lambda"; "xdot"] ["p"]
    (mkMatrix 3 3 [10; 20; 97; 11; 21; 98; 12; 22; 99])
    (mkMatrix 1 2 [30; 31])
    (mkMatrix 2 2 [40; 50; 41; 51])
    [7; 8].

(** [Sample.mucoIter] with a states matrix of three rows, one more than
    there are time samples. *)
Definition tall_mucoIter : MucoIterate Z :=
  mkMucoIterate [0; 5] ["x"; "v"] ["u"] ["lambda"] ["xdot"] ["p"]
    (mkMatrix 3 2 [10; 11; 12; 20; 21; 22])
    (mkMatrix 2 1 [30; 31])
    (mkMatrix 2 1 [40; 41])
    (mkMatrix 2 1 [50; 51])
    [7].
End Sample2.

(** ** Facts about the matrix operations *)

Section MatrixFacts.
Context {V : Type}.
Variable uninit : V.
Implicit Types (f g : nat -> nat -> V) (m : Matrix V) (l : list V).

Lemma divmod_offset r i j : i < r -> (j * r + i) mod r = i /\ (j * r + i) / r = j.
Proof.
  intros Hi. split.
  - rewrite Nat.add_comm, Nat.Div0.mod_add. by apply Nat.mod_small.
  - rewrite Nat.add_comm, Nat.div_add by lia. rewrite Nat.div_small by done. lia.
Qed.

Lemma offset_inv r c k : k < r * c -> k mod r < r /\ k / r < c /\ k = k / r * r + k mod r.
Proof.
  intros Hk. assert (r <> 0) by lia.
  split; [by apply Nat.mod_upper_bound|].
  split; [apply Nat.Div0.div_lt_upper_bound; lia|].
  rewrite (Nat.div_mod_eq k r) at 1. lia.
Qed.

Lemma length_tabulate r c f : length (tabulate r c f) = r * c.
Proof. unfold tabulate. by rewrite length_fmap, length_seq. Qed.

Lemma lookup_tabulate r c f k :
  k < r * c -> tabulate r c f !! k = Some (f (k mod r) (k / r)).
Proof.
  intros Hk. unfold tabulate.
  rewrite list_lookup_fmap, lookup_seq_lt by done. done.
Qed.

Lemma lookup_tabulate_cell r c f i j :
  i < r -> j < c -> tabulate r c f !! (j * r + i) = Some (f i j).
Proof.
  intros Hi Hj. rewrite lookup_tabulate by nia.
  by destruct (divmod_offset r i j Hi) as [-> ->].
Qed.

Lemma tabulate_ext r c f g :
  (forall i j, i < r -> j < c -> f i j = g i j) -> tabulate r c f = tabulate r c g.
Proof.
  intros Hfg. apply list_eq. intros k.
  destruct (decide (k < r * c)) as [Hk|Hk].
  - rewrite !lookup_tabulate by done.
    destruct (offset_inv r c k Hk) as (? & ? & _). f_equal. by apply Hfg.
  - rewrite !lookup_ge_None_2; [done | rewrite length_tabulate; lia ..].
Qed.

Lemma replicate_tabulate r c (x : V) :
  replicate (r * c) x = tabulate r c (fun _ _ => x).
Proof.
  apply list_eq. intros k. destruct (decide (k < r * c)) as [Hk|Hk].
  - rewrite lookup_tabulate by done. by apply lookup_replicate_2.
  - rewrite !lookup_ge_None_2;
      [done | rewrite ?length_tabulate, ?length_replicate; lia ..].
Qed.

Lemma tabulate_storage r c l :
  length l = r * c ->
  tabulate r c (fun i j => default uninit (l !! (j * r + i))) = l.
Proof.
  intros Hl. apply list_eq. intros k. destruct (decide (k < r * c)) as [Hk|Hk].
  - rewrite lookup_tabulate by done.
    destruct (offset_inv r c k Hk) as (_ & _ & <-).
    destruct (lookup_lt_is_Some_2 l k) as [x ->]; [lia | done].
  - rewrite !lookup_ge_None_2; [done | rewrite ?length_tabulate; lia ..].
Qed.

Lemma insert_tabulate r c f i j v :
  i < r -> j < c ->
  <[j * r + i := v]> (tabulate r c f) =
  tabulate r c (fun i' j' => if (i' =? i) && (j' =? j) then v else f i' j').
Proof.
  intros Hi Hj. apply list_eq. intros k.
  destruct (decide (k < r * c)) as [Hk|Hk].
  - rewrite (lookup_tabulate _ _ _ k) by done.
    destruct (decide (k = j * r + i)) as [->|Hne].
    + rewrite list_lookup_insert_eq by (rewrite length_tabulate; nia).
      destruct (divmod_offset r i j Hi) as [-> ->].
      by rewrite !Nat.eqb_refl.
    + rewrite list_lookup_insert_ne by done.
      rewrite lookup_tabulate by done.
      destruct (offset_inv r c k Hk) as (_ & _ & Hdm).
      destruct (Nat.eqb_spec (k mod r) i), (Nat.eqb_spec (k / r) j);
        simpl; try done. subst. lia.
  - rewrite !lookup_ge_None_2;
      [done | rewrite ?length_insert, ?length_tabulate; lia ..].
Qed.

End MatrixFacts.

Section MatrixShapes.
Context {V : Type}.
Variable uninit : V.
Implicit Types (f g : nat -> nat -> V) (m : Matrix V).

Lemma shaped_canonical m r c :
  shaped m r c -> m = mkMatrix r c (tabulate r c (cell uninit m)).
Proof.
  destruct m as [r' c' l]. intros (Hr & Hc & Hl). simpl in *. subst r' c'.
  f_equal. symmetry. unfold cell, offset. simpl. by apply tabulate_storage.
Qed.

Lemma cell_tabulate r c f i j :
  i < r -> j < c -> cell uninit (mkMatrix r c (tabulate r c f)) i j = f i j.
Proof.
  intros Hi Hj. unfold cell, offset. simpl.
  by rewrite lookup_tabulate_cell.
Qed.

Lemma elem_tabulate r c f i j :
  i < r -> j < c -> elem (mkMatrix r c (tabulate r c f)) i j = Some (f i j).
Proof.
  intros Hi Hj. unfold elem, offset. simpl.
  destruct (Nat.ltb_spec i r), (Nat.ltb_spec j c); try lia. simpl.
  by apply lookup_tabulate_cell.
Qed.

Lemma elem_shaped m r c i j :
  shaped m r c -> i < r -> j < c -> elem m i j = Some (cell uninit m i j).
Proof.
  intros Hm Hi Hj. rewrite (shaped_canonical m r c Hm) at 1.
  by apply elem_tabulate.
Qed.

Lemma store_tabulate r c f i j v :
  i < r -> j < c ->
  store (mkMatrix r c (tabulate r c f)) i j v =
  Some (mkMatrix r c
          (tabulate r c (fun i' j' => if (i' =? i) && (j' =? j) then v else f i' j'))).
Proof.
  intros Hi Hj. unfold store, offset. simpl. rewrite length_tabulate.
  destruct (Nat.ltb_spec i r), (Nat.ltb_spec j c), (Nat.ltb_spec (j * r + i) (r * c));
    try nia. simpl.
  by rewrite insert_tabulate.
Qed.

Lemma resize_tabulate r c :
  resize uninit r c = mkMatrix r c (tabulate r c (fun _ _ => uninit)).
Proof. unfold resize. by rewrite replicate_tabulate. Qed.

Lemma Map_exact (p : list V) r c :
  length p = r * c -> Map p r c = Some (mkMatrix r c p).
Proof.
  intros Hp. unfold Map. rewrite <- Hp.
  destruct (Nat.leb_spec (length p) (length p)); [|lia].
  by rewrite firstn_all.
Qed.

Lemma transpose_shaped m r c :
  shaped m r c ->
  transpose uninit m = mkMatrix c r (tabulate c r (fun i j => cell uninit m j i)).
Proof. intros (Hr & Hc & _). unfold transpose. by rewrite Hr, Hc. Qed.

Lemma assign_rows_tabulate R C f r0 r g :
  r0 + r <= R ->
  assign_rows uninit (mkMatrix R C (tabulate R C f)) r0 (mkMatrix r C (tabulate r C g)) =
  Some (mkMatrix R C
          (tabulate R C (fun i j => if (r0 <=? i) && (i <? r0 + r)
                                    then g (i - r0) j else f i j))).
Proof.
  intros Hr. unfold assign_rows. simpl.
  destruct (Nat.leb_spec (r0 + r) R); [|lia]. rewrite Nat.eqb_refl. simpl.
  do 2 f_equal. apply tabulate_ext. intros i j Hi Hj.
  destruct (Nat.leb_spec r0 i), (Nat.ltb_spec i (r0 + r)); simpl;
    rewrite cell_tabulate; done || lia.
Qed.

End MatrixShapes.

(** ** Facts about the monad and its loops *)

Section MonadFacts.
Context {W : Type}.

Lemma bind_Ret {A B} (m : M W A) (k : A -> M W B) w a w' :
  m w = (Ret a, w') -> bind m k w = k a w'.
Proof. intros H. unfold bind. by rewrite H. Qed.

Lemma foldM_app {A B} (body : B -> A -> M W A) l1 l2 a w :
  foldM body (l1 ++ l2) a w = bind (foldM body l1 a) (foldM body l2) w.
Proof.
  revert a w. induction l1 as [|b l1 IH]; intros a w; simpl; [done|].
  unfold bind. destruct (body b a w) as [[a'| | |] w']; [apply IH | done ..].
Qed.

Lemma for_loop_S {A} n (body : nat -> A -> M W A) a w :
  for_loop (S n) body a w = bind (for_loop n body a) (body n) w.
Proof.
  unfold for_loop. rewrite seq_S, foldM_app. simpl.
  unfold bind. destruct (foldM body (seq 0 n) a w) as [[a'| | |] w']; try done.
  by destruct (body n a' w') as [[a''| | |] w''].
Qed.

Lemma for_loop_0 {A} (body : nat -> A -> M W A) a w :
  for_loop 0 body a w = (Ret a, w).
Proof. done. Qed.

End MonadFacts.

(** One step of a run: the first computation of a [bind] returns, as [tac]
    shows, and the run goes on with its value. *)
Ltac run_step_by tac := erewrite bind_Ret by tac; cbv beta.
Ltac run_step := run_step_by ltac:(reflexivity).

(** ** The copy loops of [convertIterateTropterToMuco] *)

Section CopyLoops.
Context {V R I : Type}.
Variable uninit : V.
Variable src : I -> Matrix V.
(** The row of [src] that channel [i] is read from. *)
Variable row : nat -> nat.
Variable w : World R I.

Lemma copy_entry_run r c f t i :
  t < r -> i < c ->
  elem (src (arg w)) (row i) t = Some (cell uninit (src (arg w)) (row i) t) ->
  copy_entry src row t i (mkMatrix r c (tabulate r c f)) w =
  (Ret (mkMatrix r c
          (tabulate r c (fun t' i' => if (t' =? t) && (i' =? i)
                                      then cell uninit (src (arg w)) (row i) t
                                      else f t' i'))), w).
Proof.
  intros Ht Hi Hread. unfold copy_entry, read_elem, read_arg, write_elem, gets, bind.
  rewrite Hread. simpl. by rewrite store_tabulate.
Qed.

Lemma copy_row_run r c f t k :
  t < r -> k <= c ->
  (forall i, i < k ->
     elem (src (arg w)) (row i) t = Some (cell uninit (src (arg w)) (row i) t)) ->
  for_loop k (copy_entry src row t) (mkMatrix r c (tabulate r c f)) w =
  (Ret (mkMatrix r c
          (tabulate r c (fun t' i' => if (t' =? t) && (i' <? k)
                                      then cell uninit (src (arg w)) (row i') t'
                                      else f t' i'))), w).
Proof.
  intros Ht. induction k as [|k IH]; intros Hk Hread.
  - rewrite for_loop_0. do 3 f_equal. apply tabulate_ext. intros t' i' _ _.
    by rewrite andb_false_r.
  - rewrite for_loop_S.
    rewrite (bind_Ret _ _ _ _ _ (IH ltac:(lia) ltac:(intros; apply Hread; lia))).
    rewrite copy_entry_run by (try apply Hread; lia).
    do 3 f_equal. apply tabulate_ext. intros t' i' _ _.
    destruct (Nat.eqb_spec t' t), (Nat.eqb_spec i' k), (Nat.ltb_spec i' k),
      (Nat.ltb_spec i' (S k)); simpl; subst; done || lia.
Qed.

Lemma copy_rows_run r c f k :
  k <= r ->
  (forall t i, t < k -> i < c ->
     elem (src (arg w)) (row i) t = Some (cell uninit (src (arg w)) (row i) t)) ->
  for_loop k (fun itime => for_loop c (copy_entry src row itime))
    (mkMatrix r c (tabulate r c f)) w =
  (Ret (mkMatrix r c
          (tabulate r c (fun t' i' => if t' <? k
                                      then cell uninit (src (arg w)) (row i') t'
                                      else f t' i'))), w).
Proof.
  induction k as [|k IH]; intros Hk Hread.
  - by rewrite for_loop_0.
  - rewrite for_loop_S.
    rewrite (bind_Ret _ _ _ _ _ (IH ltac:(lia) ltac:(intros; apply Hread; lia))).
    rewrite copy_row_run by (try (intros; apply Hread); lia).
    do 3 f_equal. apply tabulate_ext. intros t' i' _ Hi'.
    destruct (Nat.eqb_spec t' k), (Nat.ltb_spec i' c), (Nat.ltb_spec t' k),
      (Nat.ltb_spec t' (S k)); simpl; subst; done || lia.
Qed.

(** Both loops, from the freshly resized matrix. *)
Lemma copy_loops_run numTimes numChannels :
  (forall t i, t < numTimes -> i < numChannels ->
     elem (src (arg w)) (row i) t = Some (cell uninit (src (arg w)) (row i) t)) ->
  for_loop numTimes (fun itime =>
    for_loop numChannels (fun i dst =>
      v <- read_elem src (row i) itime ;; write_elem dst itime i v))
    (resize uninit numTimes numChannels) w =
  (Ret (mkMatrix numTimes numChannels
          (tabulate numTimes numChannels
             (fun t i => cell uninit (src (arg w)) (row i) t))), w).
Proof.
  intros Hread. rewrite resize_tabulate.
  etrans;
    [exact (copy_rows_run numTimes numChannels (fun _ _ => uninit) numTimes
              (Nat.le_refl _) Hread)|].
  do 3 f_equal. apply tabulate_ext. intros t i Ht _.
  by destruct (Nat.ltb_spec t numTimes); [|lia].
Qed.

End CopyLoops.

(** ** What [convertIterateTropterToMuco] computes *)

Section TropterToMuco.
Context {V R : Type}.
Variable uninit : V.
Implicit Types (w : World R (tropter.Iterate V)).

Lemma vector_ctor_run {I} (n : Z) (w : World R I) :
  (0 <= n)%Z -> vector_ctor n w = (Ret tt, w).
Proof. intros Hn. unfold vector_ctor. by destruct (Z.ltb_spec n 0); [lia|]. Qed.

Lemma copy_n_prefix {A} (v : list A) n :
  n <= length v -> copy_n v 0 n = Some (take n v).
Proof. intros Hn. unfold copy_n. simpl. by destruct (Nat.leb_spec n (length v)); [|lia]. Qed.

Lemma copy_n_suffix {A} (v : list A) start :
  start <= length v -> copy_n v start (length v - start) = Some (drop start v).
Proof.
  intros Hn. unfold copy_n.
  destruct (Nat.leb_spec (start + (length v - start)) (length v)); [|lia].
  rewrite take_ge; [done | rewrite length_drop; lia].
Qed.

Lemma copy_n_all {A} (v : list A) : copy_n v 0 (length v) = Some v.
Proof. rewrite copy_n_prefix by done. by rewrite firstn_all. Qed.

Lemma copy_block_run w (none : bool) (src : tropter.Iterate V -> Matrix V)
    (row : nat -> nat) numTimes numChannels :
  (forall t i, t < numTimes -> i < numChannels ->
     elem (src (arg w)) (row i) t = Some (cell uninit (src (arg w)) (row i) t)) ->
  (if none then ret empty_matrix
   else for_loop numTimes (fun itime =>
          for_loop numChannels (fun i dst =>
            v <- read_elem src (row i) itime ;; write_elem dst itime i v))
          (resize uninit numTimes numChannels)) w =
  (Ret (if none then empty_matrix
        else mkMatrix numTimes numChannels
               (tabulate numTimes numChannels
                  (fun t i => cell uninit (src (arg w)) (row i) t))), w).
Proof. intros Hread. destruct none; [done|]. by apply copy_loops_run. Qed.

Lemma convertIterateTropterToMuco_run w :
  let tropSol := arg w in
  let numTimes := length (tropter.time tropSol) in
  let numMultipliers := Z.to_nat (m_mpSum (this w)) in
  let numDerivatives := length (tropter.adjunct_names tropSol) - numMultipliers in
  tropter_wf tropSol ->
  (0 <= m_mpSum (this w) <= Z.of_nat (length (tropter.adjunct_names tropSol)))%Z ->
  convertIterateTropterToMuco uninit w =
  (Ret (mkMucoIterate
          (tropter.time tropSol)
          (tropter.state_names tropSol)
          (tropter.control_names tropSol)
          (take numMultipliers (tropter.adjunct_names tropSol))
          (drop numMultipliers (tropter.adjunct_names tropSol))
          (tropter.parameter_names tropSol)
          (if length (tropter.state_names tropSol) =? 0 then empty_matrix
           else mkMatrix numTimes (length (tropter.state_names tropSol))
                  (tabulate numTimes (length (tropter.state_names tropSol))
                     (fun t i => cell uninit (tropter.states tropSol) i t)))
          (if length (tropter.control_names tropSol) =? 0 then empty_matrix
           else mkMatrix numTimes (length (tropter.control_names tropSol))
                  (tabulate numTimes (length (tropter.control_names tropSol))
                     (fun t i => cell uninit (tropter.controls tropSol) i t)))
          (if numMultipliers =? 0 then empty_matrix
           else mkMatrix numTimes numMultipliers
                  (tabulate numTimes numMultipliers
                     (fun t i => cell uninit (tropter.adjuncts tropSol) i t)))
          (if numDerivatives =? 0 then empty_matrix
           else mkMatrix numTimes numDerivatives
                  (tabulate numTimes numDerivatives
                     (fun t i => cell uninit (tropter.adjuncts tropSol)
                                   (i + numMultipliers) t)))
          (tropter.parameters tropSol)), w).
Proof.
  intros tropSol numTimes numMultipliers numDerivatives
    (Hstates & Hcontrols & Hadjuncts & Hparams) Hmp.
  assert (HnD : numDerivatives_of tropSol (m_mpSum (this w)) = Z.of_nat numDerivatives)
    by (unfold numDerivatives_of, int_of_size, numDerivatives, numMultipliers; lia).
  unfold convertIterateTropterToMuco.
  do 4 run_step.
  run_step_by ltac:(apply vector_ctor_run; lia).
  run_step.
  run_step_by ltac:(unfold defined; rewrite copy_n_prefix by (fold tropSol; lia);
                    reflexivity).
  run_step. fold tropSol. rewrite HnD.
  run_step_by ltac:(unfold assert; destruct (Z.leb_spec 0 (Z.of_nat numDerivatives));
                    [reflexivity|lia]).
  run_step_by ltac:(apply vector_ctor_run; lia).
  rewrite Nat2Z.id. fold numMultipliers.
  run_step_by ltac:(unfold defined, numDerivatives;
                    rewrite copy_n_suffix by (unfold numMultipliers; lia); reflexivity).
  run_step.
  run_step_by ltac:(apply (copy_block_run w _ tropter.states (fun i => i));
                    intros t i Ht Hi;
                    apply (elem_shaped uninit _ _ _ _ _ Hstates); done).
  run_step_by ltac:(apply (copy_block_run w _ tropter.controls (fun i => i));
                    intros t i Ht Hi;
                    apply (elem_shaped uninit _ _ _ _ _ Hcontrols); done).
  run_step_by ltac:(apply (copy_block_run w _ tropter.adjuncts (fun i => i));
                    intros t i Ht Hi;
                    apply (elem_shaped uninit _ _ _ _ _ Hadjuncts);
                    [unfold numMultipliers in Hi; lia|done]).
  run_step_by ltac:(apply (copy_block_run w _ tropter.adjuncts
                             (fun i => i + numMultipliers));
                    intros t i Ht Hi;
                    apply (elem_shaped uninit _ _ _ _ _ Hadjuncts);
                    [unfold numDerivatives in Hi; lia|done]).
  run_step.
  run_step_by ltac:(unfold defined; fold tropSol; rewrite <- Hparams, copy_n_all;
                    reflexivity).
  unfold ret. do 3 f_equal.
  - by destruct (Z.eqb_spec (m_mpSum (this w)) 0), (Nat.eqb_spec numMultipliers 0);
      [| unfold numMultipliers in *; lia ..|].
  - by destruct (Z.eqb_spec (Z.of_nat numDerivatives) 0), (Nat.eqb_spec numDerivatives 0);
      [| lia ..|].
Qed.

End TropterToMuco.

(** ** What [convertToTropterIterate] computes *)

Section MucoToTropter.
Context {V R : Type}.
Variable uninit : V.
Variable empty : MucoIterate V -> bool.
Implicit Types (w : World R (MucoIterate V)) (m : Matrix V).

Lemma channel_block_shaped m numTimes numChannels :
  channel_block m numTimes numChannels -> numChannels <> 0 ->
  shaped m numTimes numChannels.
Proof.
  intros (Hc & Hl & Hr) Hn. specialize (Hr Hn).
  repeat split; [done..|]. by rewrite Hl, Hr, Hc.
Qed.

Lemma Map_channel_block m numTimes numChannels :
  channel_block m numTimes numChannels -> numChannels <> 0 ->
  Map (elts m) numTimes numChannels = Some m.
Proof.
  intros Hm Hn. destruct (channel_block_shaped _ _ _ Hm Hn) as (Hr & Hc & Hl).
  rewrite Map_exact by done. destruct m; simpl in *. by subst.
Qed.

Lemma channel_block_empty m numTimes :
  channel_block m numTimes 0 -> elts m = [].
Proof.
  intros (Hc & Hl & _). rewrite Hc, Nat.mul_0_r in Hl.
  by apply length_zero_iff_nil.
Qed.

Lemma convertToTropterIterate_run w :
  let mucoIter := arg w in
  let numTimes := length (getTime mucoIter) in
  let numMultipliers := length (getMultiplierNames mucoIter) in
  let numDerivatives := length (getDerivativeNames mucoIter) in
  empty mucoIter = false ->
  Muco_wf mucoIter ->
  convertToTropterIterate uninit empty w =
  (Ret (tropter.mkIterate
          (getTime mucoIter)
          (getStateNames mucoIter)
          (getControlNames mucoIter)
          (getMultiplierNames mucoIter ++ getDerivativeNames mucoIter)
          (getParameterNames mucoIter)
          (mkMatrix (length (getStateNames mucoIter)) numTimes
             (tabulate (length (getStateNames mucoIter)) numTimes
                (fun i t => cell uninit (getStatesTrajectory mucoIter) t i)))
          (mkMatrix (length (getControlNames mucoIter)) numTimes
             (tabulate (length (getControlNames mucoIter)) numTimes
                (fun i t => cell uninit (getControlsTrajectory mucoIter) t i)))
          (mkMatrix (numMultipliers + numDerivatives) numTimes
             (tabulate (numMultipliers + numDerivatives) numTimes
                (fun i t =>
                   if i <? numMultipliers
                   then cell uninit (getMultipliersTrajectory mucoIter) t i
                   else cell uninit (getDerivativesTrajectory mucoIter) t
                          (i - numMultipliers))))
          (getParameters mucoIter)), w).
Proof.
  intros mucoIter numTimes numMultipliers numDerivatives Hne
    (Hstates & Hcontrols & Hmult & Hder & Hparams).
  unfold convertToTropterIterate.
  run_step. fold mucoIter. rewrite Hne.
  do 6 run_step. fold mucoIter.
  (* states *)
  erewrite (bind_Ret _ _ w _ w); cycle 1.
  { instantiate (1 := mkMatrix (length (getStateNames mucoIter)) numTimes
      (tabulate (length (getStateNames mucoIter)) numTimes
         (fun i t => cell uninit (getStatesTrajectory mucoIter) t i))).
    destruct (Nat.eqb_spec (length (getStateNames mucoIter)) 0) as [H0|H0].
    - rewrite H0. reflexivity.
    - run_step. fold mucoIter.
      rewrite (Map_channel_block _ _ _ Hstates H0). simpl.
      unfold bind, ret. simpl.
      rewrite (transpose_shaped uninit _ _ _ (channel_block_shaped _ _ _ Hstates H0)).
      reflexivity. }
  cbv beta.
  (* controls *)
  erewrite (bind_Ret _ _ w _ w); cycle 1.
  { instantiate (1 := mkMatrix (length (getControlNames mucoIter)) numTimes
      (tabulate (length (getControlNames mucoIter)) numTimes
         (fun i t => cell uninit (getControlsTrajectory mucoIter) t i))).
    destruct (Nat.eqb_spec (length (getControlNames mucoIter)) 0) as [H0|H0].
    - rewrite H0. reflexivity.
    - run_step. fold mucoIter.
      rewrite (Map_channel_block _ _ _ Hcontrols H0). simpl.
      unfold bind, ret. simpl.
      rewrite (transpose_shaped uninit _ _ _ (channel_block_shaped _ _ _ Hcontrols H0)).
      reflexivity. }
  cbv beta.
  (* adjuncts, top rows *)
  fold numMultipliers numDerivatives numTimes.
  rewrite resize_tabulate.
  erewrite (bind_Ret _ _ w _ w); cycle 1.
  { instantiate (1 := mkMatrix (numMultipliers + numDerivatives) numTimes
      (tabulate (numMultipliers + numDerivatives) numTimes
         (fun i t => if i <? numMultipliers
                     then cell uninit (getMultipliersTrajectory mucoIter) t i
                     else uninit))).
    destruct (Nat.eqb_spec numMultipliers 0) as [H0|H0].
    - unfold ret. do 3 f_equal. apply tabulate_ext. intros i t _ _.
      by destruct (Nat.ltb_spec i numMultipliers); [lia|].
    - run_step. fold mucoIter.
      rewrite (Map_channel_block _ numTimes numMultipliers Hmult H0). simpl.
      unfold bind, ret, defined. simpl.
      rewrite (transpose_shaped uninit _ numTimes numMultipliers (channel_block_shaped _ _ _ Hmult H0)).
      rewrite assign_rows_tabulate by lia.
      apply (f_equal (fun m => (Ret m, w))). f_equal.
      apply tabulate_ext. intros i t _ _. simpl.
      rewrite Nat.sub_0_r. done. }
  cbv beta.
  (* adjuncts, bottom rows *)
  erewrite (bind_Ret _ _ w _ w); cycle 1.
  { instantiate (1 := mkMatrix (numMultipliers + numDerivatives) numTimes
      (tabulate (numMultipliers + numDerivatives) numTimes
         (fun i t => if i <? numMultipliers
                     then cell uninit (getMultipliersTrajectory mucoIter) t i
                     else cell uninit (getDerivativesTrajectory mucoIter) t
                            (i - numMultipliers)))).
    destruct (Nat.eqb_spec numDerivatives 0) as [H0|H0].
    - unfold ret. do 3 f_equal. apply tabulate_ext. intros i t Hi _.
      by destruct (Nat.ltb_spec i numMultipliers); [|lia].
    - run_step. fold mucoIter.
      rewrite (Map_channel_block _ numTimes numDerivatives Hder H0). simpl.
      unfold bind, ret, defined. simpl.
      rewrite (transpose_shaped uninit _ numTimes numDerivatives (channel_block_shaped _ _ _ Hder H0)).
      replace (numMultipliers + numDerivatives - numDerivatives) with numMultipliers by lia.
      rewrite assign_rows_tabulate by lia.
      apply (f_equal (fun m => (Ret m, w))). f_equal.
      apply tabulate_ext. intros i t Hi _.
      destruct (Nat.leb_spec numMultipliers i), (Nat.ltb_spec i numMultipliers),
        (Nat.ltb_spec i (numMultipliers + numDerivatives)); simpl; done || lia. }
  cbv beta.
  (* parameters *)
  erewrite (bind_Ret _ _ w (getParameters mucoIter) w); cycle 1.
  { destruct (Nat.eqb_spec (length (getParameterNames mucoIter)) 0) as [H0|H0].
    - rewrite H0 in Hparams. apply length_zero_iff_nil in Hparams.
      by rewrite Hparams.
    - run_step. fold mucoIter.
      by rewrite <- Hparams, copy_n_all. }
  reflexivity.
Qed.

End MucoToTropter.

(** ** The conversions keep trajectories well-formed *)

Section WellFormedOutputs.
Context {V R : Type}.
Variable uninit : V.
Variable empty : MucoIterate V -> bool.

Lemma channel_block_built numTimes n (f : nat -> nat -> V) :
  channel_block
    (if n =? 0 then empty_matrix else mkMatrix numTimes n (tabulate numTimes n f))
    numTimes n.
Proof.
  destruct (Nat.eqb_spec n 0) as [->|Hn]; [done|].
  repeat split. apply length_tabulate.
Qed.

Lemma convertIterateTropterToMuco_wf (w : World R (tropter.Iterate V)) :
  tropter_wf (arg w) ->
  (0 <= m_mpSum (this w) <= Z.of_nat (length (tropter.adjunct_names (arg w))))%Z ->
  exists mucoIter,
    convertIterateTropterToMuco uninit w = (Ret mucoIter, w) /\ Muco_wf mucoIter.
Proof.
  intros Hwf Hmp. eexists. split; [by apply convertIterateTropterToMuco_run|].
  destruct Hwf as (_ & _ & _ & Hparams). unfold Muco_wf. simpl.
  rewrite length_take, length_drop.
  replace (Z.to_nat (m_mpSum (this w)) `min` length (tropter.adjunct_names (arg w)))
    with (Z.to_nat (m_mpSum (this w))) by lia.
  repeat split; try apply channel_block_built. done.
Qed.

Lemma convertToTropterIterate_wf (u : World R (MucoIterate V)) :
  empty (arg u) = false -> Muco_wf (arg u) ->
  exists tropIter,
    convertToTropterIterate uninit empty u = (Ret tropIter, u) /\ tropter_wf tropIter.
Proof.
  intros Hne Hwf. eexists. split; [by apply convertToTropterIterate_run|].
  destruct Hwf as (_ & _ & _ & _ & Hparams). unfold tropter_wf, shaped. simpl.
  rewrite !length_tabulate, length_app. by repeat split.
Qed.

End WellFormedOutputs.

(** ** Sample runs *)

Example sample_tropter_to_muco :
  convertIterateTropterToMuco 0%Z (mkWorld Sample.problem Sample.tropIter) =
  (Ret Sample.mucoIter, mkWorld Sample.problem Sample.tropIter).
Proof. reflexivity. Qed.

Example sample_muco_to_tropter :
  convertToTropterIterate 0%Z Sample.no_samples (mkWorld Sample.problem Sample.mucoIter) =
  (Ret Sample.tropIter, mkWorld Sample.problem Sample.mucoIter).
Proof. reflexivity. Qed.

Example sample_bare_tropter_to_muco :
  convertIterateTropterToMuco 0%Z (mkWorld Sample.bare_problem Sample.bare_tropIter) =
  (Ret Sample.bare_mucoIter, mkWorld Sample.bare_problem Sample.bare_tropIter).
Proof. reflexivity. Qed.

Example sample_bare_muco_to_tropter :
  convertToTropterIterate 0%Z Sample.no_samples
    (mkWorld Sample.bare_problem Sample.bare_mucoIter) =
  (Ret Sample.bare_tropIter, mkWorld Sample.bare_problem Sample.bare_mucoIter).
Proof. reflexivity. Qed.

(** ** Read-only computations, and runs that return *)

Section Readonly.
Context {W : Type}.

Lemma bind_inv {A B} (m : M W A) (k : A -> M W B) w b w' :
  bind m k w = (Ret b, w') -> exists a w1, m w = (Ret a, w1) /\ k a w1 = (Ret b, w').
Proof.
  unfold bind. destruct (m w) as [[a| | |] w1]; intros H; try discriminate.
  by exists a, w1.
Qed.

Lemma defined_inv {A} (o : option A) (w : W) a w' :
  defined o w = (Ret a, w') -> o = Some a /\ w' = w.
Proof. destruct o; intros H; inversion H; done. Qed.

Lemma readonly_ret {A} (a : A) : readonly (@ret W A a).
Proof. done. Qed.

Lemma readonly_gets {A} (f : W -> A) : readonly (gets f).
Proof. done. Qed.

Lemma readonly_raise {A} (e : outcome A) : readonly (@raise W A e).
Proof. done. Qed.

Lemma readonly_defined {A} (o : option A) : readonly (@defined W A o).
Proof. by destruct o. Qed.

Lemma readonly_assert b : readonly (@assert W b).
Proof. by destruct b. Qed.

Lemma readonly_if {A} (b : bool) (m1 m2 : M W A) :
  readonly m1 -> readonly m2 -> readonly (if b then m1 else m2).
Proof. by destruct b. Qed.

Lemma readonly_bind {A B} (m : M W A) (k : A -> M W B) :
  readonly m -> (forall a, readonly (k a)) -> readonly (bind m k).
Proof.
  intros Hm Hk w. unfold bind. specialize (Hm w).
  destruct (m w) as [[a| | |] w1]; simpl in *; subst; [apply Hk | done ..].
Qed.

Lemma readonly_foldM {A B} (body : B -> A -> M W A) l a :
  (forall b a, readonly (body b a)) -> readonly (foldM body l a).
Proof.
  intros Hbody. revert a. induction l as [|b l IH]; intros a; simpl.
  - apply readonly_ret.
  - apply readonly_bind; [apply Hbody | apply IH].
Qed.

Lemma readonly_for_loop {A} n (body : nat -> A -> M W A) a :
  (forall i a, readonly (body i a)) -> readonly (for_loop n body a).
Proof. apply readonly_foldM. Qed.

(** A property of the local that every iteration keeps holds at the end. *)
Lemma foldM_invariant {A B} (P : A -> Prop) (body : B -> A -> M W A) l :
  (forall b a w a' w', P a -> body b a w = (Ret a', w') -> P a') ->
  forall a w a' w', P a -> foldM body l a w = (Ret a', w') -> P a'.
Proof.
  intros Hbody. induction l as [|b l IH]; intros a w a' w' Ha Hrun; simpl in Hrun.
  - inversion Hrun. by subst.
  - apply bind_inv in Hrun as (a1 & w1 & Hstep & Hrest).
    eapply IH; [|exact Hrest]. eapply Hbody; [exact Ha | exact Hstep].
Qed.

(** The monad can express a write, and a write is not read-only. *)
Remark modify_not_readonly : ~ readonly (modify S).
Proof. intros H. specialize (H 0). discriminate. Qed.

End Readonly.

Create HintDb readonly.
#[local] Hint Resolve readonly_ret readonly_gets readonly_raise readonly_defined
  readonly_assert readonly_if readonly_bind readonly_for_loop : readonly.

Section ConversionsReadonly.
Context {V R : Type}.
Variable uninit : V.
Variable empty : MucoIterate V -> bool.

Lemma readonly_read_this {I A} (f : TropterProblemBase R -> A) :
  readonly (@read_this R I A f).
Proof. done. Qed.

Lemma readonly_read_arg {I A} (f : I -> A) : readonly (@read_arg R I A f).
Proof. done. Qed.

Lemma readonly_vector_ctor {I} n : readonly (@vector_ctor R I n).
Proof. unfold vector_ctor. auto with readonly. Qed.

Lemma readonly_read_elem {I} (src : I -> Matrix V) i j :
  readonly (@read_elem V R I src i j).
Proof. unfold read_elem. auto using readonly_read_arg with readonly. Qed.

Lemma readonly_write_elem {I} (dst : Matrix V) i j v :
  readonly (@write_elem V R I dst i j v).
Proof. apply readonly_defined. Qed.

Hint Resolve readonly_read_this readonly_read_arg readonly_vector_ctor
  readonly_read_elem readonly_write_elem : readonly.

Lemma convertIterateTropterToMuco_readonly :
  readonly (@convertIterateTropterToMuco V R uninit).
Proof. unfold convertIterateTropterToMuco. cbv zeta. auto 30 with readonly. Qed.

Lemma convertToTropterIterate_readonly :
  readonly (@convertToTropterIterate V R uninit empty).
Proof. unfold convertToTropterIterate. cbv zeta. auto 30 with readonly. Qed.

End ConversionsReadonly.

(** ** Computations without a failing assertion *)

Section AssertFree.
Context {W : Type}.

Lemma assert_free_ret {A} (a : A) : assert_free (@ret W A a).
Proof. done. Qed.

Lemma assert_free_gets {A} (f : W -> A) : assert_free (gets f).
Proof. done. Qed.

Lemma assert_free_Throw {A} : assert_free (@raise W A Throw).
Proof. done. Qed.

Lemma assert_free_Undefined {A} : assert_free (@raise W A Undefined).
Proof. done. Qed.

Lemma assert_free_defined {A} (o : option A) : assert_free (@defined W A o).
Proof. by destruct o. Qed.

Lemma assert_free_if {A} (b : bool) (m1 m2 : M W A) :
  assert_free m1 -> assert_free m2 -> assert_free (if b then m1 else m2).
Proof. by destruct b. Qed.

Lemma assert_free_bind {A B} (m : M W A) (k : A -> M W B) :
  assert_free m -> (forall a, assert_free (k a)) -> assert_free (bind m k).
Proof.
  intros Hm Hk w. unfold bind. specialize (Hm w).
  destruct (m w) as [[a| | |] w1]; simpl in *; [apply Hk | done ..].
Qed.

Lemma assert_free_foldM {A B} (body : B -> A -> M W A) l a :
  (forall b a, assert_free (body b a)) -> assert_free (foldM body l a).
Proof.
  intros Hbody. revert a. induction l as [|b l IH]; intros a; simpl.
  - apply assert_free_ret.
  - apply assert_free_bind; [apply Hbody | apply IH].
Qed.

Lemma assert_free_for_loop {A} n (body : nat -> A -> M W A) a :
  (forall i a, assert_free (body i a)) -> assert_free (for_loop n body a).
Proof. apply assert_free_foldM. Qed.

(** One step of a run from a given world. *)
Lemma bind_no_assert_at {A B} (m : M W A) (k : A -> M W B) w :
  readonly m -> fst (m w) <> AssertFailed ->
  (forall a, m w = (Ret a, w) -> fst (k a w) <> AssertFailed) ->
  fst (bind m k w) <> AssertFailed.
Proof.
  intros Hro Hm Hk. unfold bind. specialize (Hro w).
  destruct (m w) as [[a| | |] w1]; simpl in *; subst; [by apply Hk | done ..].
Qed.

End AssertFree.

Create HintDb assert_free.
#[local] Hint Resolve assert_free_ret assert_free_gets assert_free_Throw
  assert_free_Undefined assert_free_defined assert_free_if assert_free_bind
  assert_free_for_loop : assert_free.

Section ConversionsAssert.
Context {V R : Type}.
Variable uninit : V.

Lemma assert_free_read_arg {I A} (f : I -> A) : assert_free (@read_arg R I A f).
Proof. done. Qed.

Lemma assert_free_vector_ctor {I} n : assert_free (@vector_ctor R I n).
Proof. unfold vector_ctor. auto with assert_free. Qed.

Lemma assert_free_read_elem {I} (src : I -> Matrix V) i j :
  assert_free (@read_elem V R I src i j).
Proof. unfold read_elem. auto using assert_free_read_arg with assert_free. Qed.

Lemma assert_free_write_elem {I} (dst : Matrix V) i j v :
  assert_free (@write_elem V R I dst i j v).
Proof. apply assert_free_defined. Qed.

Hint Resolve assert_free_read_arg assert_free_vector_ctor
  assert_free_read_elem assert_free_write_elem : assert_free.
Hint Resolve readonly_read_this readonly_read_arg readonly_vector_ctor
  readonly_defined : readonly.

(** C6. [convertIterateTropterToMuco] asserts one thing, that
    [numDerivatives] is not negative.  Whenever [adjunct_names] has at least
    [m_mpSum] entries, [numDerivatives >= 0] holds and the run does not end
    in the failure of the assertion. *)
Theorem numDerivatives_assertion_holds (w : World R (tropter.Iterate V)) :
  (m_mpSum (this w) <= Z.of_nat (length (tropter.adjunct_names (arg w))))%Z ->
  (0 <= numDerivatives_of (arg w) (m_mpSum (this w)))%Z /\
  fst (convertIterateTropterToMuco uninit w) <> AssertFailed.
Proof.
  intros Hmp.
  assert (HnD : (0 <= numDerivatives_of (arg w) (m_mpSum (this w)))%Z)
    by (unfold numDerivatives_of, int_of_size; lia).
  split; [exact HnD|].
  unfold convertIterateTropterToMuco. cbv zeta.
  do 3 (apply bind_no_assert_at;
        [auto with readonly | apply assert_free_gets | intros ? _]).
  apply bind_no_assert_at; [auto with readonly | apply assert_free_gets |].
  intros numMultipliers [= <-].
  do 3 (apply bind_no_assert_at;
        [auto with readonly
        | first [apply assert_free_gets | apply assert_free_vector_ctor
                | apply assert_free_defined]
        | intros ? _]).
  apply bind_no_assert_at; [auto with readonly | apply assert_free_gets |].
  intros numDerivatives [= <-].
  apply bind_no_assert_at; [apply readonly_assert | |].
  - unfold assert.
    by destruct (Z.leb_spec 0 (numDerivatives_of (arg w) (m_mpSum (this w)))); [|lia].
  - intros _ _.
    match goal with
    | |- fst (?m w) <> _ => cut (assert_free m); [intros Hfree; apply Hfree|]
    end.
    auto 30 with assert_free.
Qed.

End ConversionsAssert.

(** ** The conversions on well-formed inputs *)

Section Layout.
Context {V R : Type}.
Variable uninit : V.
Variable empty : MucoIterate V -> bool.

Lemma same_entry_tabulate r c (f : nat -> nat -> V) i j m' r' c' i' j' :
  i < r -> j < c -> shaped m' r' c' -> i' < r' -> j' < c' ->
  f i j = cell uninit m' i' j' ->
  same_entry (mkMatrix r c (tabulate r c f)) i j m' i' j'.
Proof.
  intros Hi Hj Hm' Hi' Hj' Hf. exists (f i j). split.
  - by apply elem_tabulate.
  - rewrite Hf. by apply (elem_shaped uninit m' r' c').
Qed.

Lemma eqb_0_false n i : i < n -> (n =? 0) = false.
Proof. intros Hi. by destruct (Nat.eqb_spec n 0); [lia|]. Qed.

(** C1. In [convertToTropterIterate] the combined adjunct block is ordered
    multipliers first, derivatives second: [adjunct_names] is the
    multiplier names followed by the derivative names, and at every time
    index the first [numMultipliers] rows of [adjuncts] hold the multiplier
    columns and the next [numDerivatives] rows hold the derivative
    columns. *)
Theorem adjuncts_multipliers_then_derivatives (w : World R (MucoIterate V)) :
  let mucoIter := arg w in
  let numTimes := length (getTime mucoIter) in
  let numMultipliers := length (getMultiplierNames mucoIter) in
  let numDerivatives := length (getDerivativeNames mucoIter) in
  empty mucoIter = false ->
  Muco_wf mucoIter ->
  exists tropIter,
    convertToTropterIterate uninit empty w = (Ret tropIter, w) /\
    tropter.adjunct_names tropIter =
      getMultiplierNames mucoIter ++ getDerivativeNames mucoIter /\
    nrow (tropter.adjuncts tropIter) = numMultipliers + numDerivatives /\
    forall itime, itime < numTimes ->
      (forall i, i < numMultipliers ->
         same_entry (tropter.adjuncts tropIter) i itime
           (getMultipliersTrajectory mucoIter) itime i) /\
      (forall k, k < numDerivatives ->
         same_entry (tropter.adjuncts tropIter) (numMultipliers + k) itime
           (getDerivativesTrajectory mucoIter) itime k).
Proof.
  cbv zeta. intros Hne Hwf.
  eexists. split; [by apply convertToTropterIterate_run|].
  destruct Hwf as (_ & _ & Hmult & Hder & _). simpl.
  split; [done|]. split; [done|]. intros itime Ht. split.
  - intros i Hi.
    eapply same_entry_tabulate;
      [| | apply (channel_block_shaped _ _ _ Hmult) | ..]; try done; try lia.
    by destruct (Nat.ltb_spec i (length (getMultiplierNames (arg w)))); [|lia].
  - intros k Hk.
    eapply same_entry_tabulate;
      [| | apply (channel_block_shaped _ _ _ Hder) | ..]; try done; try lia.
    destruct (Nat.ltb_spec (length (getMultiplierNames (arg w)) + k)
                (length (getMultiplierNames (arg w)))); [lia|].
    f_equal. lia.
Qed.

(** C4. [convertIterateTropterToMuco] splits the adjunct channels at
    [m_mpSum]: the first [m_mpSum] adjunct names and matrix rows become the
    multiplier names and the multiplier matrix, the remaining names and rows
    the derivative names and the derivative matrix. *)
Theorem adjuncts_split_at_mpSum (w : World R (tropter.Iterate V)) :
  let tropSol := arg w in
  let numTimes := length (tropter.time tropSol) in
  let numMultipliers := Z.to_nat (m_mpSum (this w)) in
  let numDerivatives := length (tropter.adjunct_names tropSol) - numMultipliers in
  tropter_wf tropSol ->
  (0 <= m_mpSum (this w) <= Z.of_nat (length (tropter.adjunct_names tropSol)))%Z ->
  exists mucoIter,
    convertIterateTropterToMuco uninit w = (Ret mucoIter, w) /\
    getMultiplierNames mucoIter = take numMultipliers (tropter.adjunct_names tropSol) /\
    getDerivativeNames mucoIter = drop numMultipliers (tropter.adjunct_names tropSol) /\
    length (getMultiplierNames mucoIter) = numMultipliers /\
    length (getDerivativeNames mucoIter) = numDerivatives /\
    forall itime, itime < numTimes ->
      (forall i, i < numMultipliers ->
         same_entry (getMultipliersTrajectory mucoIter) itime i
           (tropter.adjuncts tropSol) i itime) /\
      (forall k, k < numDerivatives ->
         same_entry (getDerivativesTrajectory mucoIter) itime k
           (tropter.adjuncts tropSol) (numMultipliers + k) itime).
Proof.
  cbv zeta. intros Hwf Hmp.
  eexists. split; [by apply convertIterateTropterToMuco_run|].
  destruct Hwf as (_ & _ & Hadj & _). simpl.
  split; [done|]. split; [done|].
  split; [rewrite length_take; lia|].
  split; [rewrite length_drop; done|].
  intros itime Ht. split.
  - intros i Hi. rewrite (eqb_0_false _ _ Hi).
    eapply same_entry_tabulate; [| | exact Hadj | ..]; try done. lia.
  - intros k Hk. rewrite (eqb_0_false _ _ Hk).
    eapply same_entry_tabulate; [| | exact Hadj | ..]; try done; [lia|].
    f_equal. lia.
Qed.

End Layout.

Section Transposition.
Context {V R : Type}.
Variable uninit : V.
Variable empty : MucoIterate V -> bool.

(** C5. Each conversion copies every named channel between the two layouts
    by transposition.  Entry [(itime, i)] of a matrix that
    [convertIterateTropterToMuco] returns is entry [(i, itime)] of the
    tropter matrix it was read from, and the matrices that
    [convertToTropterIterate] returns are the transposes of the Muscollo
    matrices. *)
Theorem channels_copied_by_transposition
    (w : World R (tropter.Iterate V)) (u : World R (MucoIterate V)) :
  tropter_wf (arg w) ->
  (0 <= m_mpSum (this w) <= Z.of_nat (length (tropter.adjunct_names (arg w))))%Z ->
  empty (arg u) = false ->
  Muco_wf (arg u) ->
  (exists mucoIter,
     convertIterateTropterToMuco uninit w = (Ret mucoIter, w) /\
     forall itime, itime < length (tropter.time (arg w)) ->
       (forall i, i < length (tropter.state_names (arg w)) ->
          same_entry (getStatesTrajectory mucoIter) itime i
            (tropter.states (arg w)) i itime) /\
       (forall i, i < length (tropter.control_names (arg w)) ->
          same_entry (getControlsTrajectory mucoIter) itime i
            (tropter.controls (arg w)) i itime) /\
       (forall i, i < Z.to_nat (m_mpSum (this w)) ->
          same_entry (getMultipliersTrajectory mucoIter) itime i
            (tropter.adjuncts (arg w)) i itime) /\
       (forall i, i < length (tropter.adjunct_names (arg w))
                      - Z.to_nat (m_mpSum (this w)) ->
          same_entry (getDerivativesTrajectory mucoIter) itime i
            (tropter.adjuncts (arg w)) (i + Z.to_nat (m_mpSum (this w))) itime)) /\
  (exists tropIter,
     convertToTropterIterate uninit empty u = (Ret tropIter, u) /\
     (getStateNames (arg u) <> [] ->
      tropter.states tropIter = transpose uninit (getStatesTrajectory (arg u))) /\
     (getControlNames (arg u) <> [] ->
      tropter.controls tropIter = transpose uninit (getControlsTrajectory (arg u))) /\
     forall itime, itime < length (getTime (arg u)) ->
       (forall i, i < length (getStateNames (arg u)) ->
          same_entry (tropter.states tropIter) i itime
            (getStatesTrajectory (arg u)) itime i) /\
       (forall i, i < length (getControlNames (arg u)) ->
          same_entry (tropter.controls tropIter) i itime
            (getControlsTrajectory (arg u)) itime i) /\
       (forall i, i < length (getMultiplierNames (arg u)) ->
          same_entry (tropter.adjuncts tropIter) i itime
            (getMultipliersTrajectory (arg u)) itime i) /\
       (forall i, i < length (getDerivativeNames (arg u)) ->
          same_entry (tropter.adjuncts tropIter)
            (i + length (getMultiplierNames (arg u))) itime
            (getDerivativesTrajectory (arg u)) itime i)).
Proof.
  intros Hwf Hmp Hne Hmwf. split.
  - eexists. split; [by apply convertIterateTropterToMuco_run|].
    destruct Hwf as (Hstates & Hcontrols & Hadj & _). simpl.
    intros itime Ht. repeat split; intros i Hi; rewrite (eqb_0_false _ _ Hi).
    + eapply (same_entry_tabulate uninit); [| | exact Hstates | ..]; done.
    + eapply (same_entry_tabulate uninit); [| | exact Hcontrols | ..]; done.
    + eapply (same_entry_tabulate uninit); [| | exact Hadj | ..]; try done. lia.
    + eapply (same_entry_tabulate uninit); [| | exact Hadj | ..]; try done. lia.
  - eexists. split; [by apply convertToTropterIterate_run|].
    destruct Hmwf as (Hstates & Hcontrols & Hmult & Hder & _). simpl.
    assert (Hlen : forall names : list string, names <> [] -> length names <> 0)
      by (by intros [|? ?]).
    split; [intros H0; symmetry; apply transpose_shaped;
            apply (channel_block_shaped _ _ _ Hstates); by apply Hlen|].
    split; [intros H0; symmetry; apply transpose_shaped;
            apply (channel_block_shaped _ _ _ Hcontrols); by apply Hlen|].
    intros itime Ht. repeat split; intros i Hi.
    + eapply (same_entry_tabulate uninit);
        [| | apply (channel_block_shaped _ _ _ Hstates) | ..]; done || lia.
    + eapply (same_entry_tabulate uninit);
        [| | apply (channel_block_shaped _ _ _ Hcontrols) | ..]; done || lia.
    + eapply (same_entry_tabulate uninit);
        [| | apply (channel_block_shaped _ _ _ Hmult) | ..]; try done; try lia.
      by destruct (Nat.ltb_spec i (length (getMultiplierNames (arg u)))); [|lia].
    + eapply (same_entry_tabulate uninit);
        [| | apply (channel_block_shaped _ _ _ Hder) | ..]; try done; try lia.
      destruct (Nat.ltb_spec (i + length (getMultiplierNames (arg u)))
                  (length (getMultiplierNames (arg u)))); [lia|].
      f_equal. lia.
Qed.

Lemma same_entries_eq (m m' : Matrix V) :
  same_entries m m' -> (ncol m = 0 -> nrow m = 0) -> m' = m.
Proof.
  destruct m as [r c l], m' as [r' c' l']. unfold same_entries. simpl.
  intros (-> & -> & ->) H0. destruct (Nat.eqb_spec c 0) as [Hc|Hc]; [|done].
  by rewrite H0.
Qed.

(** Reading back, time-major, what was laid out channel-major. *)
Lemma transposed_back (m T : Matrix V) (row : nat -> nat) numTimes n :
  channel_block m numTimes n ->
  (forall t i, t < numTimes -> i < n -> cell uninit T (row i) t = cell uninit m t i) ->
  same_entries m
    (if n =? 0 then empty_matrix
     else mkMatrix numTimes n
            (tabulate numTimes n (fun t i => cell uninit T (row i) t))).
Proof.
  intros Hm Hcell. destruct (Nat.eqb_spec n 0) as [->|Hn].
  - repeat split; simpl.
    + symmetry. by apply (channel_block_empty _ numTimes).
    + by destruct Hm as (-> & _).
    + by destruct Hm as (-> & _).
  - rewrite (tabulate_ext numTimes n _ (cell uninit m)) by done.
    rewrite <- (shaped_canonical uninit m) by by apply channel_block_shaped.
    destruct Hm as (Hc & _). repeat split.
    rewrite Hc. by destruct (Nat.eqb_spec n 0).
Qed.

Lemma roundtrip_run (problem : TropterProblemBase R) (mucoIter : MucoIterate V) :
  empty mucoIter = false ->
  Z.of_nat (length (getMultiplierNames mucoIter)) = m_mpSum problem ->
  Muco_wf mucoIter ->
  exists tropIter back,
    convertToTropterIterate uninit empty (mkWorld problem mucoIter) =
      (Ret tropIter, mkWorld problem mucoIter) /\
    convertIterateTropterToMuco uninit (mkWorld problem tropIter) =
      (Ret back, mkWorld problem tropIter) /\
    getTime back = getTime mucoIter /\
    getStateNames back = getStateNames mucoIter /\
    getControlNames back = getControlNames mucoIter /\
    getMultiplierNames back = getMultiplierNames mucoIter /\
    getDerivativeNames back = getDerivativeNames mucoIter /\
    getParameterNames back = getParameterNames mucoIter /\
    same_entries (getStatesTrajectory mucoIter) (getStatesTrajectory back) /\
    same_entries (getControlsTrajectory mucoIter) (getControlsTrajectory back) /\
    same_entries (getMultipliersTrajectory mucoIter) (getMultipliersTrajectory back) /\
    same_entries (getDerivativesTrajectory mucoIter) (getDerivativesTrajectory back) /\
    getParameters back = getParameters mucoIter.
Proof.
  intros Hne Hmp Hwf.
  pose proof (convertToTropterIterate_run uninit empty (mkWorld problem mucoIter)
                Hne Hwf) as Hto.
  cbv zeta in Hto. simpl in Hto.
  eexists. eexists. split; [exact Hto|]. clear Hto.
  destruct Hwf as (Hstates & Hcontrols & Hmult & Hder & Hparams).
  split.
  { apply convertIterateTropterToMuco_run; unfold tropter_wf, shaped; simpl;
      rewrite ?length_app, ?length_tabulate; [repeat split; done | lia]. }
  simpl. rewrite <- Hmp, Nat2Z.id, length_app.
  replace (length (getMultiplierNames mucoIter) + length (getDerivativeNames mucoIter)
           - length (getMultiplierNames mucoIter))
    with (length (getDerivativeNames mucoIter)) by lia.
  rewrite take_app_length, drop_app_length.
  repeat (split; [done|]).
  split; [|split; [|split; [|split; [|done]]]].
  - apply (transposed_back _ _ (fun i => i)); [done|]. intros t i Ht Hi.
    by rewrite cell_tabulate.
  - apply (transposed_back _ _ (fun i => i)); [done|]. intros t i Ht Hi.
    by rewrite cell_tabulate.
  - apply (transposed_back _ _ (fun i => i)); [done|]. intros t i Ht Hi.
    rewrite cell_tabulate by lia.
    by destruct (Nat.ltb_spec i (length (getMultiplierNames mucoIter))); [|lia].
  - apply (transposed_back _ _ (fun i => i + length (getMultiplierNames mucoIter)));
      [done|]. intros t i Ht Hi.
    rewrite cell_tabulate by lia.
    destruct (Nat.ltb_spec (i + length (getMultiplierNames mucoIter))
                (length (getMultiplierNames mucoIter))); [lia|].
    f_equal. lia.
Qed.

(** C3. For a non-empty Muscollo iterate whose multiplier names are as many
    as the problem's [m_mpSum] and whose matrices have one row per time
    sample (asked here only of the matrices that have a column),
    [convertToTropterIterate] followed by [convertIterateTropterToMuco]
    returns an iterate with the same time vector, the same five name lists,
    the same matrix entries and the same parameters: the split at
    [m_mpSum] undoes the concatenation of multipliers and derivatives.  The
    matrix of a group without a channel comes back as the 0 x 0 matrix, so
    the iterate that comes back is the very iterate that went in as soon as
    its matrices without a column have no row either. *)
Theorem Muco_tropter_Muco_roundtrip
    (problem : TropterProblemBase R) (mucoIter : MucoIterate V) :
  empty mucoIter = false ->
  Z.of_nat (length (getMultiplierNames mucoIter)) = m_mpSum problem ->
  Muco_wf mucoIter ->
  exists tropIter back,
    convertToTropterIterate uninit empty (mkWorld problem mucoIter) =
      (Ret tropIter, mkWorld problem mucoIter) /\
    convertIterateTropterToMuco uninit (mkWorld problem tropIter) =
      (Ret back, mkWorld problem tropIter) /\
    getTime back = getTime mucoIter /\
    getStateNames back = getStateNames mucoIter /\
    getControlNames back = getControlNames mucoIter /\
    getMultiplierNames back = getMultiplierNames mucoIter /\
    getDerivativeNames back = getDerivativeNames mucoIter /\
    getParameterNames back = getParameterNames mucoIter /\
    same_entries (getStatesTrajectory mucoIter) (getStatesTrajectory back) /\
    same_entries (getControlsTrajectory mucoIter) (getControlsTrajectory back) /\
    same_entries (getMultipliersTrajectory mucoIter) (getMultipliersTrajectory back) /\
    same_entries (getDerivativesTrajectory mucoIter) (getDerivativesTrajectory back) /\
    getParameters back = getParameters mucoIter /\
    ((forall m,
        In m [getStatesTrajectory mucoIter; getControlsTrajectory mucoIter;
              getMultipliersTrajectory mucoIter; getDerivativesTrajectory mucoIter] ->
        ncol m = 0 -> nrow m = 0) ->
     back = mucoIter).
Proof.
  intros Hne Hmp Hwf.
  destruct (roundtrip_run problem mucoIter Hne Hmp Hwf)
    as (tropIter & back & Hto & Hback & Ht & Hsn & Hcn & Hmn & Hdn & Hpn
        & Hs & Hc & Hm & Hd & Hp).
  exists tropIter, back. repeat (split; [assumption|]).
  intros Hnone.
  apply same_entries_eq in Hs; [|apply Hnone; simpl; auto].
  apply same_entries_eq in Hc; [|apply Hnone; simpl; auto].
  apply same_entries_eq in Hm; [|apply Hnone; simpl; auto].
  apply same_entries_eq in Hd; [|apply Hnone; simpl; auto 6].
  destruct back, mucoIter. simpl in *. by subst.
Qed.

End Transposition.

(** ** What any returning run of the conversions must have done *)

Section Inversion.
Context {V R : Type}.
Variable uninit : V.
Variable empty : MucoIterate V -> bool.

Hint Resolve readonly_read_this readonly_read_arg readonly_vector_ctor
  readonly_read_elem readonly_write_elem : readonly.

Lemma bind_inv_readonly {W A B} (m : M W A) (k : A -> M W B) w b w' :
  readonly m -> bind m k w = (Ret b, w') ->
  exists a, m w = (Ret a, w) /\ k a w = (Ret b, w').
Proof.
  intros Hro Hrun. apply bind_inv in Hrun as (a & w1 & Hm & Hk).
  specialize (Hro w). rewrite Hm in Hro. simpl in Hro. subst w1. by exists a.
Qed.

Lemma vector_ctor_inv {I} n (w : World R I) u w' :
  vector_ctor n w = (Ret u, w') -> (0 <= n)%Z.
Proof. unfold vector_ctor. by destruct (Z.ltb_spec n 0). Qed.

Lemma copy_n_inv {A} (v : list A) start n l :
  copy_n v start n = Some l -> start + n <= length v /\ l = take n (drop start v).
Proof.
  unfold copy_n. destruct (Nat.leb_spec (start + n) (length v)); [|done].
  by intros [= <-].
Qed.

Lemma store_inv (m : Matrix V) i j v m' :
  store m i j v = Some m' -> nrow m' = nrow m /\ ncol m' = ncol m.
Proof.
  unfold store.
  destruct ((i <? nrow m) && (j <? ncol m) && (offset m i j <? length (elts m)));
    [|done].
  by intros [= <-].
Qed.

Lemma Map_inv (p : list V) r c m :
  Map p r c = Some m -> nrow m = r /\ ncol m = c.
Proof. unfold Map. destruct (r * c <=? length p); [|done]. by intros [= <-]. Qed.

Lemma assign_rows_inv (dst src : Matrix V) r0 m :
  assign_rows uninit dst r0 src = Some m -> nrow m = nrow dst /\ ncol m = ncol dst.
Proof.
  unfold assign_rows.
  destruct ((r0 + nrow src <=? nrow dst) && (ncol src =? ncol dst)); [|done].
  by intros [= <-].
Qed.

(** The copy loops keep the shape of the matrix they fill. *)
Lemma copy_loops_shape {I} (src : I -> Matrix V) (row : nat -> nat)
    numTimes numChannels (m0 m : Matrix V) (w w' : World R I) :
  for_loop numTimes (fun itime =>
    for_loop numChannels (fun i dst =>
      v <- read_elem src (row i) itime ;; write_elem dst itime i v)) m0 w =
  (Ret m, w') ->
  nrow m = nrow m0 /\ ncol m = ncol m0.
Proof.
  unfold for_loop.
  apply (foldM_invariant (fun m => nrow m = nrow m0 /\ ncol m = ncol m0)); [|done].
  intros itime.
  apply (foldM_invariant (fun m => nrow m = nrow m0 /\ ncol m = ncol m0)).
  intros i dst w1 dst' w2 [Hr Hc] Hstep.
  apply bind_inv in Hstep as (v & w3 & _ & Hwrite).
  apply defined_inv in Hwrite as [Hstore _].
  apply store_inv in Hstore as [-> ->]. done.
Qed.

Lemma copy_block_shape {I} (src : I -> Matrix V) (row : nat -> nat)
    (none : bool) numTimes numChannels (m : Matrix V) (w w' : World R I) :
  (if none then ret empty_matrix
   else for_loop numTimes (fun itime =>
          for_loop numChannels (fun i dst =>
            v <- read_elem src (row i) itime ;; write_elem dst itime i v))
          (resize uninit numTimes numChannels)) w = (Ret m, w') ->
  if none then m = empty_matrix else nrow m = numTimes /\ ncol m = numChannels.
Proof.
  destruct none; [by intros [= <-]|]. intros Hrun.
  by apply copy_loops_shape in Hrun.
Qed.

Lemma convertIterateTropterToMuco_inv (w w' : World R (tropter.Iterate V)) mucoIter :
  convertIterateTropterToMuco uninit w = (Ret mucoIter, w') ->
  let tropSol := arg w in
  let numTimes := length (tropter.time tropSol) in
  let numMultipliers := Z.to_nat (m_mpSum (this w)) in
  (0 <= m_mpSum (this w) <= Z.of_nat (length (tropter.adjunct_names tropSol)))%Z /\
  getTime mucoIter = tropter.time tropSol /\
  getStateNames mucoIter = tropter.state_names tropSol /\
  getControlNames mucoIter = tropter.control_names tropSol /\
  getMultiplierNames mucoIter = take numMultipliers (tropter.adjunct_names tropSol) /\
  getDerivativeNames mucoIter = drop numMultipliers (tropter.adjunct_names tropSol) /\
  getParameterNames mucoIter = tropter.parameter_names tropSol /\
  built_block (getStatesTrajectory mucoIter) numTimes
    (length (tropter.state_names tropSol)) /\
  built_block (getControlsTrajectory mucoIter) numTimes
    (length (tropter.control_names tropSol)) /\
  built_block (getMultipliersTrajectory mucoIter) numTimes numMultipliers /\
  built_block (getDerivativesTrajectory mucoIter) numTimes
    (length (tropter.adjunct_names tropSol) - numMultipliers) /\
  getParameters mucoIter =
    take (length (tropter.parameter_names tropSol)) (tropter.parameters tropSol).
Proof.
  intros Hrun. cbv zeta. unfold convertIterateTropterToMuco in Hrun. cbv zeta in Hrun.
  apply bind_inv_readonly in Hrun as (time & [= <-] & Hrun); [|auto with readonly].
  apply bind_inv_readonly in Hrun as (state_names & [= <-] & Hrun); [|auto with readonly].
  apply bind_inv_readonly in Hrun as (control_names & [= <-] & Hrun); [|auto with readonly].
  apply bind_inv_readonly in Hrun as (numMultipliers & [= <-] & Hrun); [|auto with readonly].
  apply bind_inv_readonly in Hrun as (? & HnM & Hrun); [|auto with readonly].
  apply vector_ctor_inv in HnM.
  apply bind_inv_readonly in Hrun as (adjunct_names & [= <-] & Hrun); [|auto with readonly].
  apply bind_inv_readonly in Hrun as (multiplier_names & Hmn & Hrun); [|auto with readonly].
  apply defined_inv, proj1, copy_n_inv in Hmn as [Hle ->]. simpl in Hle.
  apply bind_inv_readonly in Hrun as (numDerivatives & [= <-] & Hrun); [|auto with readonly].
  apply bind_inv_readonly in Hrun as (? & _ & Hrun); [|auto with readonly].
  apply bind_inv_readonly in Hrun as (? & _ & Hrun); [|auto with readonly].
  apply bind_inv_readonly in Hrun as (derivative_names & Hdn & Hrun); [|auto with readonly].
  apply defined_inv, proj1, copy_n_inv in Hdn as [_ ->].
  apply bind_inv_readonly in Hrun as (parameter_names & [= <-] & Hrun); [|auto with readonly].
  apply bind_inv_readonly in Hrun as (states & Hstates & Hrun); [|auto 10 with readonly].
  apply (copy_block_shape tropter.states (fun i => i)) in Hstates.
  apply bind_inv_readonly in Hrun as (controls & Hcontrols & Hrun); [|auto 10 with readonly].
  apply (copy_block_shape tropter.controls (fun i => i)) in Hcontrols.
  apply bind_inv_readonly in Hrun as (multipliers & Hmult & Hrun); [|auto 10 with readonly].
  apply (copy_block_shape tropter.adjuncts (fun i => i)) in Hmult.
  apply bind_inv_readonly in Hrun as (derivatives & Hder & Hrun); [|auto 10 with readonly].
  apply (copy_block_shape tropter.adjuncts
           (fun i => i + Z.to_nat (m_mpSum (this w)))) in Hder.
  apply bind_inv_readonly in Hrun as (tropParameters & [= <-] & Hrun); [|auto with readonly].
  apply bind_inv_readonly in Hrun as (parameters & Hp & Hrun); [|auto with readonly].
  apply defined_inv, proj1, copy_n_inv in Hp as [_ ->].
  injection Hrun as <- _. simpl.
  unfold numDerivatives_of, int_of_size in *. unfold built_block.
  split; [lia|]. repeat (split; [done|]).
  split; [rewrite take_ge by (rewrite length_drop; lia); done|].
  repeat (split; [done|]).
  split; [|split; [|done]].
  - by destruct (Z.eqb_spec (m_mpSum (this w)) 0), (Nat.eqb_spec (Z.to_nat (m_mpSum (this w))) 0);
      [|lia..|].
  - destruct (Z.eqb_spec (Z.of_nat (length (tropter.adjunct_names (arg w)))
                          - m_mpSum (this w)) 0),
      (Nat.eqb_spec (length (tropter.adjunct_names (arg w))
                     - Z.to_nat (m_mpSum (this w))) 0); [done|lia..|].
    destruct Hder as [-> ->]. split; [done|lia].
Qed.

End Inversion.

Section InversionToTropter.
Context {V R : Type}.
Variable uninit : V.
Variable empty : MucoIterate V -> bool.
Implicit Types (u : World R (MucoIterate V)) (get : MucoIterate V -> Matrix V).

Hint Resolve readonly_read_this readonly_read_arg : readonly.

Lemma transposed_block_shape get numTimes n u u' (m : Matrix V) :
  (if n =? 0 then ret (resize uninit n numTimes)
   else p <- read_arg (fun mucoIter => Map (elts (get mucoIter)) numTimes n) ;;
        p <- defined p ;; ret (transpose uninit p)) u = (Ret m, u') ->
  nrow m = n /\ ncol m = numTimes /\ (n = 0 -> m = mkMatrix 0 numTimes []).
Proof.
  destruct (Nat.eqb_spec n 0) as [->|Hn].
  - by intros [= <- _].
  - intros Hrun.
    apply bind_inv in Hrun as (p & u1 & [= <- <-] & Hrun).
    apply bind_inv in Hrun as (p' & u2 & Hp & Hrun).
    apply defined_inv, proj1, Map_inv in Hp as [Hr Hc].
    injection Hrun as <- _. simpl. by rewrite Hr, Hc.
Qed.

Lemma assigned_block_shape get numTimes n r0 (adjuncts adjuncts' : Matrix V) u u' :
  (if n =? 0 then ret adjuncts
   else p <- read_arg (fun mucoIter => Map (elts (get mucoIter)) numTimes n) ;;
        p <- defined p ;;
        defined (assign_rows uninit adjuncts r0 (transpose uninit p))) u =
  (Ret adjuncts', u') ->
  nrow adjuncts' = nrow adjuncts /\ ncol adjuncts' = ncol adjuncts /\
  (n = 0 -> adjuncts' = adjuncts).
Proof.
  destruct (Nat.eqb_spec n 0) as [->|Hn].
  - by intros [= <- _].
  - intros Hrun.
    apply bind_inv in Hrun as (p & u1 & _ & Hrun).
    apply bind_inv in Hrun as (p' & u2 & _ & Hrun).
    apply defined_inv, proj1, assign_rows_inv in Hrun as [Hr Hc]. done.
Qed.

Lemma readonly_Map_transpose get numTimes n (k : Matrix V -> M (World R (MucoIterate V)) (Matrix V)) :
  (forall m, readonly (k m)) ->
  readonly (p <- read_arg (fun mucoIter => Map (elts (get mucoIter)) numTimes n) ;;
            p <- defined p ;; k p).
Proof. intros Hk. auto 10 with readonly. Qed.

Lemma convertToTropterIterate_inv u u' tropIter :
  convertToTropterIterate uninit empty u = (Ret tropIter, u') ->
  let mucoIter := arg u in
  let numTimes := length (getTime mucoIter) in
  let numAdjuncts :=
    length (getMultiplierNames mucoIter) + length (getDerivativeNames mucoIter) in
  if empty mucoIter then tropIter = tropter.default
  else
    tropter.time tropIter = getTime mucoIter /\
    tropter.state_names tropIter = getStateNames mucoIter /\
    tropter.control_names tropIter = getControlNames mucoIter /\
    tropter.adjunct_names tropIter =
      getMultiplierNames mucoIter ++ getDerivativeNames mucoIter /\
    tropter.parameter_names tropIter = getParameterNames mucoIter /\
    (nrow (tropter.states tropIter) = length (getStateNames mucoIter) /\
     ncol (tropter.states tropIter) = numTimes /\
     (length (getStateNames mucoIter) = 0 ->
      tropter.states tropIter = mkMatrix 0 numTimes [])) /\
    (nrow (tropter.controls tropIter) = length (getControlNames mucoIter) /\
     ncol (tropter.controls tropIter) = numTimes /\
     (length (getControlNames mucoIter) = 0 ->
      tropter.controls tropIter = mkMatrix 0 numTimes [])) /\
    (nrow (tropter.adjuncts tropIter) = numAdjuncts /\
     ncol (tropter.adjuncts tropIter) = numTimes /\
     (numAdjuncts = 0 -> tropter.adjuncts tropIter = mkMatrix 0 numTimes [])) /\
    (length (getParameterNames mucoIter) = 0 -> tropter.parameters tropIter = []).
Proof.
  intros Hrun. cbv zeta. unfold convertToTropterIterate in Hrun. cbv zeta in Hrun.
  apply bind_inv_readonly in Hrun as (isEmpty & [= <-] & Hrun); [|auto with readonly].
  destruct (empty (arg u)); [by injection Hrun as <- _|].
  apply bind_inv_readonly in Hrun as (time & [= <-] & Hrun); [|auto with readonly].
  apply bind_inv_readonly in Hrun as (state_names & [= <-] & Hrun); [|auto with readonly].
  apply bind_inv_readonly in Hrun as (control_names & [= <-] & Hrun); [|auto with readonly].
  apply bind_inv_readonly in Hrun as (multiplierNames & [= <-] & Hrun); [|auto with readonly].
  apply bind_inv_readonly in Hrun as (derivativeNames & [= <-] & Hrun); [|auto with readonly].
  apply bind_inv_readonly in Hrun as (parameter_names & [= <-] & Hrun); [|auto with readonly].
  apply bind_inv_readonly in Hrun as (states & Hstates & Hrun);
    [|auto 10 using readonly_Map_transpose with readonly].
  apply transposed_block_shape in Hstates.
  apply bind_inv_readonly in Hrun as (controls & Hcontrols & Hrun);
    [|auto 10 using readonly_Map_transpose with readonly].
  apply transposed_block_shape in Hcontrols.
  apply bind_inv_readonly in Hrun as (adjuncts1 & Htop & Hrun);
    [|auto 10 using readonly_Map_transpose with readonly].
  apply assigned_block_shape in Htop as (Hr1 & Hc1 & Hsame1).
  apply bind_inv_readonly in Hrun as (adjuncts2 & Hbottom & Hrun);
    [|auto 10 using readonly_Map_transpose with readonly].
  apply assigned_block_shape in Hbottom as (Hr2 & Hc2 & Hsame2).
  apply bind_inv in Hrun as (parameters & u1 & Hparams & Hrun).
  injection Hrun as <- _. simpl.
  repeat (split; [done|]).
  split; [|destruct (Nat.eqb_spec (length (getParameterNames (arg u))) 0);
           [by injection Hparams as <- _ | done]].
  rewrite Hr2, Hr1, Hc2, Hc1. simpl. repeat (split; [done|]).
  intros H0. rewrite Hsame2, Hsame1 by lia. unfold resize. by rewrite H0.
Qed.

End InversionToTropter.

(** ** Shapes of the matrices the conversions return *)

Section Shapes.
Context {V R : Type}.
Variable uninit : V.
Variable empty : MucoIterate V -> bool.

Lemma built_block_rows (m : Matrix V) numTimes n :
  built_block m numTimes n -> m <> empty_matrix -> nrow m = numTimes.
Proof. unfold built_block. destruct (n =? 0); [done|]. by intros [-> _]. Qed.

Lemma built_block_none (m : Matrix V) numTimes :
  built_block m numTimes 0 -> m = empty_matrix.
Proof. done. Qed.

(** C7. Every trajectory record that a conversion returns has one time
    sample count for all its channels: each matrix of the Muscollo record
    other than the empty matrix has [numTimes] rows, and each matrix of
    the tropter record other than the empty matrix has [numTimes] columns,
    [numTimes] being the length of the time vector of the input. *)
Theorem outputs_share_time_sample_count
    (w w' : World R (tropter.Iterate V)) (u u' : World R (MucoIterate V))
    (mucoIter : MucoIterate V) (tropIter : tropter.Iterate V) :
  convertIterateTropterToMuco uninit w = (Ret mucoIter, w') ->
  convertToTropterIterate uninit empty u = (Ret tropIter, u') ->
  (length (getTime mucoIter) = length (tropter.time (arg w)) /\
   forall m,
     In m [getStatesTrajectory mucoIter; getControlsTrajectory mucoIter;
           getMultipliersTrajectory mucoIter; getDerivativesTrajectory mucoIter] ->
     m <> empty_matrix -> nrow m = length (tropter.time (arg w))) /\
  (forall m,
     In m [tropter.states tropIter; tropter.controls tropIter;
           tropter.adjuncts tropIter] ->
     m <> empty_matrix -> ncol m = length (getTime (arg u))).
Proof.
  intros HtoMuco HtoTropter. split.
  - apply convertIterateTropterToMuco_inv in HtoMuco. cbv zeta in HtoMuco.
    destruct HtoMuco as (_ & -> & _ & _ & _ & _ & _ & Hs & Hc & Hm & Hd & _).
    split; [done|]. intros m Hin.
    repeat (destruct Hin as [<-|Hin]; [by eapply built_block_rows|]).
    destruct Hin.
  - apply convertToTropterIterate_inv in HtoTropter. cbv zeta in HtoTropter.
    intros m Hin Hm. destruct (empty (arg u)).
    + subst tropIter.
      repeat (destruct Hin as [<-|Hin]; [done|]). destruct Hin.
    + destruct HtoTropter
        as (_ & _ & _ & _ & _ & (_ & Hs & _) & (_ & Hc & _) & (_ & Ha & _) & _).
      repeat (destruct Hin as [<-|Hin]; [done|]). destruct Hin.
Qed.

(** C2, as amended.  In [convertIterateTropterToMuco] a channel group
    without a channel gets the default-constructed 0 x 0 matrix, whatever
    the number of time samples, and no parameter name gives an empty
    parameter vector.  In [convertToTropterIterate] on a non-empty iterate,
    states or controls without a channel get a 0 x [numTimes] matrix;
    [adjuncts] always is ([numMultipliers] + [numDerivatives]) x
    [numTimes], so it is 0 x [numTimes] when both groups are without a
    channel; and no parameter name gives an empty parameter vector. *)
Theorem empty_channel_group_matrices
    (w w' : World R (tropter.Iterate V)) (u u' : World R (MucoIterate V))
    (mucoIter : MucoIterate V) (tropIter : tropter.Iterate V) :
  convertIterateTropterToMuco uninit w = (Ret mucoIter, w') ->
  convertToTropterIterate uninit empty u = (Ret tropIter, u') ->
  empty (arg u) = false ->
  ((tropter.state_names (arg w) = [] -> getStatesTrajectory mucoIter = empty_matrix) /\
   (tropter.control_names (arg w) = [] ->
    getControlsTrajectory mucoIter = empty_matrix) /\
   (m_mpSum (this w) = 0%Z -> getMultipliersTrajectory mucoIter = empty_matrix) /\
   (Z.of_nat (length (tropter.adjunct_names (arg w))) = m_mpSum (this w) ->
    getDerivativesTrajectory mucoIter = empty_matrix) /\
   (tropter.parameter_names (arg w) = [] -> getParameters mucoIter = [])) /\
  ((getStateNames (arg u) = [] ->
    tropter.states tropIter = mkMatrix 0 (length (getTime (arg u))) []) /\
   (getControlNames (arg u) = [] ->
    tropter.controls tropIter = mkMatrix 0 (length (getTime (arg u))) []) /\
   (nrow (tropter.adjuncts tropIter) =
      length (getMultiplierNames (arg u)) + length (getDerivativeNames (arg u)) /\
    ncol (tropter.adjuncts tropIter) = length (getTime (arg u))) /\
   (getMultiplierNames (arg u) = [] -> getDerivativeNames (arg u) = [] ->
    tropter.adjuncts tropIter = mkMatrix 0 (length (getTime (arg u))) []) /\
   (getParameterNames (arg u) = [] -> tropter.parameters tropIter = [])).
Proof.
  intros HtoMuco HtoTropter Hne. split.
  - apply convertIterateTropterToMuco_inv in HtoMuco. cbv zeta in HtoMuco.
    destruct HtoMuco as (Hmp & _ & _ & _ & _ & _ & _ & Hs & Hc & Hm & Hd & ->).
    repeat split.
    + intros H0. rewrite H0 in Hs. by apply built_block_none in Hs.
    + intros H0. rewrite H0 in Hc. by apply built_block_none in Hc.
    + intros H0. rewrite H0 in Hm. by apply built_block_none in Hm.
    + intros H0.
      replace (length (tropter.adjunct_names (arg w)) - Z.to_nat (m_mpSum (this w)))
        with 0 in Hd by lia.
      by apply built_block_none in Hd.
    + by intros ->.
  - apply convertToTropterIterate_inv in HtoTropter. cbv zeta in HtoTropter.
    rewrite Hne in HtoTropter.
    destruct HtoTropter
      as (_ & _ & _ & _ & _ & (_ & _ & Hs) & (_ & _ & Hc) & (Har & Hac & Ha) & Hp).
    repeat split; try done.
    + intros H0. apply Hs. by rewrite H0.
    + intros H0. apply Hc. by rewrite H0.
    + intros H0 H1. apply Ha. by rewrite H0, H1.
    + intros H0. apply Hp. by rewrite H0.
Qed.

End Shapes.

(** C2, as stated, fails.  The sample tropter trajectory with the state [x]
    alone has two time samples and no control: the controls matrix that
    [convertIterateTropterToMuco] returns is 0 x 0, zero-sized along the time
    dimension too and not 2 x 0.  In the other direction the controls matrix
    that [convertToTropterIterate] returns is 0 x 2, a matrix of two empty
    columns. *)
Lemma empty_controls_shape_counterexample :
  (exists mucoIter,
     convertIterateTropterToMuco 0%Z (mkWorld Sample.bare_problem Sample.bare_tropIter) =
       (Ret mucoIter, mkWorld Sample.bare_problem Sample.bare_tropIter) /\
     tropter.control_names Sample.bare_tropIter = [] /\
     ~ (nrow (getControlsTrajectory mucoIter) = length (tropter.time Sample.bare_tropIter) /\
        ncol (getControlsTrajectory mucoIter) = 0)) /\
  (exists tropIter,
     convertToTropterIterate 0%Z Sample.no_samples
       (mkWorld Sample.bare_problem Sample.bare_mucoIter) =
       (Ret tropIter, mkWorld Sample.bare_problem Sample.bare_mucoIter) /\
     getControlNames Sample.bare_mucoIter = [] /\
     tropter.controls tropIter = mkMatrix 0 2 []).
Proof.
  split.
  - exists Sample.bare_mucoIter. split; [reflexivity|]. split; [reflexivity|].
    simpl. intros [H _]. discriminate H.
  - exists Sample.bare_tropIter. by repeat split.
Qed.

(** ** The empty iterate *)

Section Purity.
Context {V R : Type}.
Variable uninit : V.
Variable empty : MucoIterate V -> bool.

(** C9. On an empty iterate [convertToTropterIterate] returns the
    default-constructed [tropter::Iterate] (no time sample, no name, empty
    matrices), and nothing of the input shows in the result: any two empty
    iterates give the same result. *)
Theorem convertToTropterIterate_of_empty (u : World R (MucoIterate V)) :
  empty (arg u) = true ->
  convertToTropterIterate uninit empty u =
    (Ret (tropter.mkIterate [] [] [] [] [] empty_matrix empty_matrix empty_matrix []), u) /\
  forall u' : World R (MucoIterate V),
    empty (arg u') = true ->
    fst (convertToTropterIterate uninit empty u') =
    fst (convertToTropterIterate uninit empty u).
Proof.
  intros He.
  assert (Hrun : forall v : World R (MucoIterate V), empty (arg v) = true ->
            convertToTropterIterate uninit empty v = (Ret tropter.default, v)).
  { intros v Hv. unfold convertToTropterIterate. cbv zeta.
    run_step. by rewrite Hv. }
  split; [by apply Hrun|].
  intros u' He'. by rewrite !Hrun.
Qed.

End Purity.

(** ** The model factory *)

Section ModelFactoryFacts.
Variable Model : Type.
Variable createNLinkPendulum : Z -> Model.

(** C10. [createDoublePendulum()] is [createNLinkPendulum(2)], but the
    class has no member [createPendulum]: its definition is part of the
    comment line before [createDoublePendulum]. *)
Theorem createPendulum_is_not_a_member :
  ModelFactory_inline Model createNLinkPendulum "createDoublePendulum" =
    Some (createNLinkPendulum 2) /\
  ModelFactory_inline Model createNLinkPendulum "createPendulum" = None /\
  ~ In "createPendulum"%string ModelFactory_members.
Proof.
  split; [reflexivity|]. split; [reflexivity|].
  unfold ModelFactory_members. simpl. intros H.
  repeat (destruct H as [H|H]; [discriminate H|]). exact H.
Qed.

End ModelFactoryFacts.

(** ** The theorems at the sample trajectories *)

Lemma sample_tropter_wf : tropter_wf Sample.tropIter.
Proof. by repeat split. Qed.

Lemma sample_Muco_wf : Muco_wf Sample.mucoIter.
Proof. by repeat split. Qed.

Lemma adjuncts_multipliers_then_derivatives_witness :
  exists tropIter,
    convertToTropterIterate 0%Z Sample.no_samples
      (mkWorld Sample.problem Sample.mucoIter) =
      (Ret tropIter, mkWorld Sample.problem Sample.mucoIter) /\
    tropter.adjunct_names tropIter = ["lambda"; "xdot"]%string.
Proof.
  destruct (adjuncts_multipliers_then_derivatives 0%Z Sample.no_samples
              (mkWorld Sample.problem Sample.mucoIter) eq_refl sample_Muco_wf)
    as (tropIter & Hrun & Hnames & _).
  exists tropIter. split; [exact Hrun | exact Hnames].
Defined.

Lemma empty_channel_group_matrices_witness :
  getControlsTrajectory Sample.bare_mucoIter = empty_matrix /\
  tropter.controls Sample.bare_tropIter = mkMatrix 0 2 [].
Proof.
  destruct (empty_channel_group_matrices 0%Z Sample.no_samples
              (mkWorld Sample.bare_problem Sample.bare_tropIter) _
              (mkWorld Sample.bare_problem Sample.bare_mucoIter) _
              Sample.bare_mucoIter Sample.bare_tropIter eq_refl eq_refl eq_refl)
    as ((_ & Hc & _) & (_ & Hc' & _)).
  split; [exact (Hc eq_refl) | exact (Hc' eq_refl)].
Defined.

Lemma Muco_tropter_Muco_roundtrip_witness :
  exists tropIter back,
    convertToTropterIterate 0%Z Sample.no_samples
      (mkWorld Sample.problem Sample.mucoIter) =
      (Ret tropIter, mkWorld Sample.problem Sample.mucoIter) /\
    convertIterateTropterToMuco 0%Z (mkWorld Sample.problem tropIter) =
      (Ret back, mkWorld Sample.problem tropIter) /\
    getTime back = getTime Sample.mucoIter /\
    same_entries (getStatesTrajectory Sample.mucoIter) (getStatesTrajectory back).
Proof.
  destruct (Muco_tropter_Muco_roundtrip 0%Z Sample.no_samples
              Sample.problem Sample.mucoIter eq_refl eq_refl sample_Muco_wf)
    as (tropIter & back & Hto & Hback & Htime & _ & _ & _ & _ & _ & Hstates & _).
  exists tropIter, back. repeat split; assumption || apply Hstates.
Defined.

Lemma adjuncts_split_at_mpSum_witness :
  exists mucoIter,
    convertIterateTropterToMuco 0%Z (mkWorld Sample.problem Sample.tropIter) =
      (Ret mucoIter, mkWorld Sample.problem Sample.tropIter) /\
    getMultiplierNames mucoIter = ["lambda"]%string /\
    getDerivativeNames mucoIter = ["xdot"]%string.
Proof.
  destruct (adjuncts_split_at_mpSum 0%Z (mkWorld Sample.problem Sample.tropIter)
              sample_tropter_wf ltac:(simpl; lia))
    as (mucoIter & Hrun & Hm & Hd & _).
  exists mucoIter. repeat split; assumption.
Defined.

Lemma channels_copied_by_transposition_witness :
  (exists mucoIter,
     convertIterateTropterToMuco 0%Z (mkWorld Sample.problem Sample.tropIter) =
       (Ret mucoIter, mkWorld Sample.problem Sample.tropIter) /\
     same_entry (getStatesTrajectory mucoIter) 1 0 (tropter.states Sample.tropIter) 0 1) /\
  (exists tropIter,
     convertToTropterIterate 0%Z Sample.no_samples
       (mkWorld Sample.problem Sample.mucoIter) =
       (Ret tropIter, mkWorld Sample.problem Sample.mucoIter) /\
     tropter.states tropIter = transpose 0%Z (getStatesTrajectory Sample.mucoIter)).
Proof.
  destruct (channels_copied_by_transposition 0%Z Sample.no_samples
              (mkWorld Sample.problem Sample.tropIter)
              (mkWorld Sample.problem Sample.mucoIter)
              sample_tropter_wf ltac:(simpl; lia) eq_refl sample_Muco_wf)
    as ((mucoIter & Hrun & Hentries) & (tropIter & Hrun' & Hstates & _)).
  split.
  - exists mucoIter. split; [exact Hrun|].
    apply (Hentries 1); simpl; lia.
  - exists tropIter. split; [exact Hrun'|]. apply Hstates. discriminate.
Defined.

Lemma numDerivatives_assertion_holds_witness :
  (0 <= numDerivatives_of Sample.tropIter 1)%Z /\
  fst (convertIterateTropterToMuco 0%Z (mkWorld Sample.problem Sample.tropIter))
    <> AssertFailed.
Proof.
  apply (numDerivatives_assertion_holds 0%Z (mkWorld Sample.problem Sample.tropIter)).
  simpl. lia.
Defined.

Lemma outputs_share_time_sample_count_witness :
  nrow (getStatesTrajectory Sample.mucoIter) = 2 /\
  ncol (tropter.adjuncts Sample.tropIter) = 2.
Proof.
  destruct (outputs_share_time_sample_count 0%Z Sample.no_samples
              (mkWorld Sample.problem Sample.tropIter) _
              (mkWorld Sample.problem Sample.mucoIter) _
              Sample.mucoIter Sample.tropIter eq_refl eq_refl)
    as ((_ & Hrows) & Hcols).
  split.
  - apply (Hrows (getStatesTrajectory Sample.mucoIter)); [simpl; auto | discriminate].
  - apply (Hcols (tropter.adjuncts Sample.tropIter)); [simpl; auto | discriminate].
Defined.

Lemma convertToTropterIterate_of_empty_witness :
  convertToTropterIterate 0%Z Sample.no_samples
    (mkWorld Sample.problem Sample.blank_mucoIter) =
  (Ret (tropter.mkIterate [] [] [] [] [] empty_matrix empty_matrix empty_matrix []),
   mkWorld Sample.problem Sample.blank_mucoIter).
Proof.
  apply (convertToTropterIterate_of_empty 0%Z Sample.no_samples
           (mkWorld Sample.problem Sample.blank_mucoIter)).
  reflexivity.
Defined.

(** ** Runs of [convertIterateTropterToMuco] on any input *)

Section AnyTropterInput.
Context {V R : Type}.
Variable uninit : V.
Implicit Types (w : World R (tropter.Iterate V)) (m : Matrix V).

Hint Resolve readonly_read_this readonly_read_arg readonly_vector_ctor
  readonly_read_elem readonly_write_elem : readonly.

Lemma elem_cell m i j : is_Some (elem m i j) -> elem m i j = Some (cell uninit m i j).
Proof.
  unfold elem, cell.
  destruct ((i <? nrow m) && (j <? ncol m)); intros [v Hv]; [|done].
  by rewrite Hv.
Qed.

Lemma shaped_readable m n numTimes : shaped m n numTimes -> block_readable m n numTimes.
Proof.
  intros Hm itime i Ht Hi. rewrite (elem_shaped uninit m n numTimes) by done. by eexists.
Qed.

Lemma tropter_wf_readable (mpSum : Z) (tropSol : tropter.Iterate V) :
  tropter_wf tropSol ->
  (0 <= mpSum <= Z.of_nat (length (tropter.adjunct_names tropSol)))%Z ->
  tropter_readable mpSum tropSol.
Proof.
  intros (Hs & Hc & Ha & Hp) Hmp.
  repeat split; try (by apply shaped_readable); lia.
Qed.

(** Every iteration of a loop that returns has returned. *)
Lemma foldM_each {W A B} (body : B -> A -> M W A) l a (w w' : W) a' :
  (forall b a, readonly (body b a)) ->
  foldM body l a w = (Ret a', w') ->
  forall b, In b l -> exists a1 a2, body b a1 w = (Ret a2, w).
Proof.
  intros Hro. revert a. induction l as [|b0 l IH]; intros a Hrun b Hin; [done|].
  simpl in Hrun. apply bind_inv_readonly in Hrun as (a1 & Hstep & Hrest); [|apply Hro].
  destruct Hin as [<-|Hin]; [by exists a, a1|]. by eapply IH.
Qed.

(** The copy loops return only if every entry they read exists. *)
Lemma copy_loops_reads (src : tropter.Iterate V -> Matrix V) (row : nat -> nat)
    numTimes numChannels m0 m w w' :
  for_loop numTimes (fun itime =>
    for_loop numChannels (fun i dst =>
      v <- read_elem src (row i) itime ;; write_elem dst itime i v)) m0 w =
  (Ret m, w') ->
  forall itime i, itime < numTimes -> i < numChannels ->
    is_Some (elem (src (arg w)) (row i) itime).
Proof.
  intros Hrun itime i Ht Hi. unfold for_loop in Hrun.
  eapply (foldM_each _ _ _ _ _ _) in Hrun as (d1 & d2 & Hrow);
    [| intros; apply readonly_foldM; auto with readonly | apply in_seq; split; [lia|exact Ht] ].
  eapply (foldM_each _ _ _ _ _ _) in Hrow as (e1 & e2 & Hentry);
    [| auto with readonly | apply in_seq; split; [lia|exact Hi] ].
  apply bind_inv in Hentry as (v & w1 & Hread & _).
  unfold read_elem in Hread.
  apply bind_inv in Hread as (o & w2 & [= <- <-] & Hdef).
  apply defined_inv in Hdef as [-> _]. by eexists.
Qed.

Lemma copy_block_reads (src : tropter.Iterate V -> Matrix V) (row : nat -> nat)
    (none : bool) numTimes numChannels m w w' :
  (if none then ret empty_matrix
   else for_loop numTimes (fun itime =>
          for_loop numChannels (fun i dst =>
            v <- read_elem src (row i) itime ;; write_elem dst itime i v))
          (resize uninit numTimes numChannels)) w = (Ret m, w') ->
  none = false ->
  forall itime i, itime < numTimes -> i < numChannels ->
    is_Some (elem (src (arg w)) (row i) itime).
Proof. intros Hrun ->. by eapply copy_loops_reads. Qed.

Lemma convertIterateTropterToMuco_reads w w' mucoIter :
  convertIterateTropterToMuco uninit w = (Ret mucoIter, w') ->
  tropter_readable (m_mpSum (this w)) (arg w).
Proof.
  intros Hrun. unfold convertIterateTropterToMuco in Hrun. cbv zeta in Hrun.
  apply bind_inv_readonly in Hrun as (time & [= <-] & Hrun); [|auto with readonly].
  apply bind_inv_readonly in Hrun as (state_names & [= <-] & Hrun); [|auto with readonly].
  apply bind_inv_readonly in Hrun as (control_names & [= <-] & Hrun); [|auto with readonly].
  apply bind_inv_readonly in Hrun as (numMultipliers & [= <-] & Hrun); [|auto with readonly].
  apply bind_inv_readonly in Hrun as (? & HnM & Hrun); [|auto with readonly].
  apply vector_ctor_inv in HnM.
  apply bind_inv_readonly in Hrun as (adjunct_names & [= <-] & Hrun); [|auto with readonly].
  apply bind_inv_readonly in Hrun as (multiplier_names & Hmn & Hrun); [|auto with readonly].
  apply defined_inv, proj1, copy_n_inv in Hmn as [Hle _]. simpl in Hle.
  apply bind_inv_readonly in Hrun as (numDerivatives & [= <-] & Hrun); [|auto with readonly].
  apply bind_inv_readonly in Hrun as (? & _ & Hrun); [|auto with readonly].
  apply bind_inv_readonly in Hrun as (? & _ & Hrun); [|auto with readonly].
  apply bind_inv_readonly in Hrun as (derivative_names & _ & Hrun); [|auto with readonly].
  apply bind_inv_readonly in Hrun as (parameter_names & [= <-] & Hrun); [|auto with readonly].
  apply bind_inv_readonly in Hrun as (states & Hstates & Hrun); [|auto 10 with readonly].
  pose proof (copy_block_reads tropter.states (fun i => i) _ _ _ _ _ _ Hstates) as Hs.
  apply bind_inv_readonly in Hrun as (controls & Hcontrols & Hrun); [|auto 10 with readonly].
  pose proof (copy_block_reads tropter.controls (fun i => i) _ _ _ _ _ _ Hcontrols) as Hc.
  apply bind_inv_readonly in Hrun as (multipliers & Hmult & Hrun); [|auto 10 with readonly].
  pose proof (copy_block_reads tropter.adjuncts (fun i => i) _ _ _ _ _ _ Hmult) as Hm.
  apply bind_inv_readonly in Hrun as (derivatives & Hder & Hrun); [|auto 10 with readonly].
  pose proof (copy_block_reads tropter.adjuncts
                (fun i => i + Z.to_nat (m_mpSum (this w))) _ _ _ _ _ _ Hder) as Hd.
  apply bind_inv_readonly in Hrun as (tropParameters & [= <-] & Hrun); [|auto with readonly].
  apply bind_inv_readonly in Hrun as (parameters & Hp & Hrun); [|auto with readonly].
  apply defined_inv, proj1, copy_n_inv in Hp as [Hple _]. simpl in Hple.
  unfold numDerivatives_of, int_of_size in *.
  split; [lia|]. split; [|split; [|split; [|done]]].
  - intros itime i Ht Hi. apply Hs; [|done..]. by apply (eqb_0_false _ i).
  - intros itime i Ht Hi. apply Hc; [|done..]. by apply (eqb_0_false _ i).
  - intros itime i Ht Hi.
    destruct (decide (i < Z.to_nat (m_mpSum (this w)))) as [Hlt|Hge].
    + apply Hm; [|done..]. apply Z.eqb_neq. lia.
    + replace i with (i - Z.to_nat (m_mpSum (this w)) + Z.to_nat (m_mpSum (this w)))
        by lia.
      apply Hd; [apply Z.eqb_neq; lia | done | lia].
Qed.

End AnyTropterInput.

Section AnyTropterInputRuns.
Context {V R : Type}.
Variable uninit : V.
Implicit Types (w : World R (tropter.Iterate V)) (m : Matrix V).

Lemma convertIterateTropterToMuco_run_readable w :
  let tropSol := arg w in
  let numTimes := length (tropter.time tropSol) in
  let numMultipliers := Z.to_nat (m_mpSum (this w)) in
  let numDerivatives := length (tropter.adjunct_names tropSol) - numMultipliers in
  tropter_readable (m_mpSum (this w)) tropSol ->
  convertIterateTropterToMuco uninit w =
  (Ret (mkMucoIterate
          (tropter.time tropSol)
          (tropter.state_names tropSol)
          (tropter.control_names tropSol)
          (take numMultipliers (tropter.adjunct_names tropSol))
          (drop numMultipliers (tropter.adjunct_names tropSol))
          (tropter.parameter_names tropSol)
          (if length (tropter.state_names tropSol) =? 0 then empty_matrix
           else mkMatrix numTimes (length (tropter.state_names tropSol))
                  (tabulate numTimes (length (tropter.state_names tropSol))
                     (fun t i => cell uninit (tropter.states tropSol) i t)))
          (if length (tropter.control_names tropSol) =? 0 then empty_matrix
           else mkMatrix numTimes (length (tropter.control_names tropSol))
                  (tabulate numTimes (length (tropter.control_names tropSol))
                     (fun t i => cell uninit (tropter.controls tropSol) i t)))
          (if numMultipliers =? 0 then empty_matrix
           else mkMatrix numTimes numMultipliers
                  (tabulate numTimes numMultipliers
                     (fun t i => cell uninit (tropter.adjuncts tropSol) i t)))
          (if numDerivatives =? 0 then empty_matrix
           else mkMatrix numTimes numDerivatives
                  (tabulate numTimes numDerivatives
                     (fun t i => cell uninit (tropter.adjuncts tropSol)
                                   (i + numMultipliers) t)))
          (take (length (tropter.parameter_names tropSol))
             (tropter.parameters tropSol))), w).
Proof.
  intros tropSol numTimes numMultipliers numDerivatives
    (Hmp & Hstates & Hcontrols & Hadjuncts & Hparams).
  assert (HnD : numDerivatives_of tropSol (m_mpSum (this w)) = Z.of_nat numDerivatives)
    by (unfold numDerivatives_of, int_of_size, numDerivatives, numMultipliers; lia).
  unfold convertIterateTropterToMuco.
  do 4 run_step.
  run_step_by ltac:(apply vector_ctor_run; lia).
  run_step.
  run_step_by ltac:(unfold defined; rewrite copy_n_prefix by (fold tropSol; lia);
                    reflexivity).
  run_step. fold tropSol. rewrite HnD.
  run_step_by ltac:(unfold assert; destruct (Z.leb_spec 0 (Z.of_nat numDerivatives));
                    [reflexivity|lia]).
  run_step_by ltac:(apply vector_ctor_run; lia).
  rewrite Nat2Z.id. fold numMultipliers.
  run_step_by ltac:(unfold defined, numDerivatives;
                    rewrite copy_n_suffix by (unfold numMultipliers; lia); reflexivity).
  run_step.
  run_step_by ltac:(apply (copy_block_run uninit w _ tropter.states (fun i => i));
                    intros t i Ht Hi;
                    apply elem_cell, Hstates; done).
  run_step_by ltac:(apply (copy_block_run uninit w _ tropter.controls (fun i => i));
                    intros t i Ht Hi;
                    apply elem_cell, Hcontrols; done).
  run_step_by ltac:(apply (copy_block_run uninit w _ tropter.adjuncts (fun i => i));
                    intros t i Ht Hi;
                    apply elem_cell, Hadjuncts;
                    [done|unfold numMultipliers in Hi; lia]).
  run_step_by ltac:(apply (copy_block_run uninit w _ tropter.adjuncts
                             (fun i => i + numMultipliers));
                    intros t i Ht Hi;
                    apply elem_cell, Hadjuncts;
                    [done|unfold numDerivatives in Hi; lia]).
  run_step.
  run_step_by ltac:(unfold defined; fold tropSol; rewrite copy_n_prefix by done;
                    reflexivity).
  unfold ret. do 3 f_equal.
  - by destruct (Z.eqb_spec (m_mpSum (this w)) 0), (Nat.eqb_spec numMultipliers 0);
      [| unfold numMultipliers in *; lia ..|].
  - by destruct (Z.eqb_spec (Z.of_nat numDerivatives) 0), (Nat.eqb_spec numDerivatives 0);
      [| lia ..|].
Qed.

End AnyTropterInputRuns.

(** ** [convertIterateTropterToMuco] on any input: when it returns, and what *)

Section AnyTropterInputFacts.
Context {V R : Type}.
Implicit Types (w : World R (tropter.Iterate V)) (m : Matrix V) (uninit : V).

Hint Resolve assert_free_read_arg assert_free_vector_ctor
  assert_free_read_elem assert_free_write_elem : assert_free.

Lemma cell_indep uninit uninit' m i j :
  is_Some (elem m i j) -> cell uninit m i j = cell uninit' m i j.
Proof.
  intros H. pose proof (elem_cell uninit m i j H) as H1.
  pose proof (elem_cell uninit' m i j H) as H2. congruence.
Qed.

Lemma same_entry_readable uninit r c (f : nat -> nat -> V) i j m' i' j' :
  i < r -> j < c -> is_Some (elem m' i' j') ->
  f i j = cell uninit m' i' j' ->
  same_entry (mkMatrix r c (tabulate r c f)) i j m' i' j'.
Proof.
  intros Hi Hj Hm' Hf. exists (f i j). split.
  - by apply elem_tabulate.
  - rewrite Hf. by apply elem_cell.
Qed.

Lemma returned_is_readable_run uninit w w' mucoIter :
  convertIterateTropterToMuco uninit w = (Ret mucoIter, w') ->
  tropter_readable (m_mpSum (this w)) (arg w) /\ w' = w /\
  convertIterateTropterToMuco uninit w = (Ret mucoIter, w).
Proof.
  intros Hrun. split; [by eapply convertIterateTropterToMuco_reads|].
  pose proof (convertIterateTropterToMuco_readonly uninit w) as Hro.
  rewrite Hrun in Hro. simpl in Hro. by subst.
Qed.

(** X2. [convertIterateTropterToMuco] returns whenever everything it reads
    is there: [m_mpSum] is between 0 and the number of adjunct names, there
    is a value for every parameter name, and the states, controls and
    adjuncts matrices have an entry for every channel name and time sample.
    The matrices may have more rows and columns, and there may be more
    parameter values, than the name lists and the time vector ask for. *)
Theorem convertIterateTropterToMuco_returns_when_readable uninit w :
  tropter_readable (m_mpSum (this w)) (arg w) ->
  exists mucoIter, convertIterateTropterToMuco uninit w = (Ret mucoIter, w).
Proof.
  intros Hread. eexists. by apply convertIterateTropterToMuco_run_readable.
Qed.

(** X3. An [m_mpSum] outside of 0 .. the number of adjunct names never
    gives a result: a negative [m_mpSum] ends the run in the
    [std::length_error] of the vector constructor of line 33, whatever the
    iterate, and with an [m_mpSum] above the number of adjunct names the run
    does not return. *)
Theorem convertIterateTropterToMuco_rejects_mpSum uninit w :
  ((m_mpSum (this w) < 0)%Z -> fst (convertIterateTropterToMuco uninit w) = Throw) /\
  ((Z.of_nat (length (tropter.adjunct_names (arg w))) < m_mpSum (this w))%Z ->
   forall mucoIter, fst (convertIterateTropterToMuco uninit w) <> Ret mucoIter).
Proof.
  split.
  - intros Hneg. unfold convertIterateTropterToMuco. cbv zeta. do 4 run_step.
    unfold bind at 1. unfold vector_ctor.
    by destruct (Z.ltb_spec (m_mpSum (this w)) 0); [|lia].
  - intros Hbig mucoIter Hret.
    destruct (convertIterateTropterToMuco uninit w) as [out w'] eqn:Hrun.
    simpl in Hret. subst out.
    apply convertIterateTropterToMuco_inv in Hrun. cbv zeta in Hrun.
    destruct Hrun as (Hmp & _). lia.
Qed.

(** X4. Every iterate (or solution) that [convertIterateTropterToMuco]
    returns is well-formed, whatever the shapes of the input: each matrix
    has one column per name of its group and, unless the group is without a
    channel, one row per time sample, its storage agrees with its shape, and
    there is one value per parameter name. *)
Theorem convertToMucoSolution_returns_well_formed uninit w w' mucoSol :
  convertToMucoSolution uninit w = (Ret mucoSol, w') -> Muco_wf mucoSol.
Proof.
  intros Hrun. apply returned_is_readable_run in Hrun as (Hread & _ & Hrun).
  rewrite (convertIterateTropterToMuco_run_readable uninit w Hread) in Hrun.
  injection Hrun as <-. destruct Hread as (Hmp & _ & _ & _ & Hp).
  unfold Muco_wf. simpl. rewrite !length_take, length_drop.
  replace (Z.to_nat (m_mpSum (this w)) `min` length (tropter.adjunct_names (arg w)))
    with (Z.to_nat (m_mpSum (this w))) by lia.
  repeat split; try apply channel_block_built. lia.
Qed.

(** X5. Whenever [convertIterateTropterToMuco] returns, no name is lost or
    made up: the time vector and the state, control and parameter names are
    those of the input, there are exactly [m_mpSum] multiplier names, and the
    multiplier names followed by the derivative names are the adjunct
    names. *)
Theorem convertIterateTropterToMuco_keeps_names uninit w w' mucoIter :
  convertIterateTropterToMuco uninit w = (Ret mucoIter, w') ->
  getTime mucoIter = tropter.time (arg w) /\
  getStateNames mucoIter = tropter.state_names (arg w) /\
  getControlNames mucoIter = tropter.control_names (arg w) /\
  getParameterNames mucoIter = tropter.parameter_names (arg w) /\
  Z.of_nat (length (getMultiplierNames mucoIter)) = m_mpSum (this w) /\
  getMultiplierNames mucoIter ++ getDerivativeNames mucoIter =
    tropter.adjunct_names (arg w).
Proof.
  intros Hrun. apply convertIterateTropterToMuco_inv in Hrun. cbv zeta in Hrun.
  destruct Hrun as (Hmp & -> & -> & -> & -> & -> & -> & _).
  repeat (split; [done|]). split.
  - rewrite length_take. lia.
  - apply take_drop.
Qed.

(** X6. Whenever [convertIterateTropterToMuco] returns, whatever the shapes
    of the input matrices (they may be larger than the name lists and the
    time vector ask for), entry [(itime, i)] of each returned matrix is
    entry [(i, itime)] of the matrix it is read from, the derivatives being
    read [m_mpSum] rows down. *)
Theorem convertIterateTropterToMuco_returns_transposed uninit w w' mucoIter :
  convertIterateTropterToMuco uninit w = (Ret mucoIter, w') ->
  forall itime, itime < length (tropter.time (arg w)) ->
    (forall i, i < length (tropter.state_names (arg w)) ->
       same_entry (getStatesTrajectory mucoIter) itime i
         (tropter.states (arg w)) i itime) /\
    (forall i, i < length (tropter.control_names (arg w)) ->
       same_entry (getControlsTrajectory mucoIter) itime i
         (tropter.controls (arg w)) i itime) /\
    (forall i, i < Z.to_nat (m_mpSum (this w)) ->
       same_entry (getMultipliersTrajectory mucoIter) itime i
         (tropter.adjuncts (arg w)) i itime) /\
    (forall i, i < length (tropter.adjunct_names (arg w))
                   - Z.to_nat (m_mpSum (this w)) ->
       same_entry (getDerivativesTrajectory mucoIter) itime i
         (tropter.adjuncts (arg w)) (i + Z.to_nat (m_mpSum (this w))) itime).
Proof.
  intros Hrun. apply returned_is_readable_run in Hrun as (Hread & _ & Hrun).
  rewrite (convertIterateTropterToMuco_run_readable uninit w Hread) in Hrun.
  injection Hrun as <-. destruct Hread as (Hmp & Hs & Hc & Ha & _).
  intros itime Ht. simpl.
  repeat split; intros i Hi; rewrite (eqb_0_false _ _ Hi);
    apply (same_entry_readable uninit); try done.
  - by apply Hs.
  - by apply Hc.
  - apply Ha; [done|lia].
  - apply Ha; [done|lia].
Qed.

Lemma convertIterateTropterToMuco_fresh_storage uninit uninit' w w' mucoIter :
  convertIterateTropterToMuco uninit w = (Ret mucoIter, w') ->
  convertIterateTropterToMuco uninit' w = (Ret mucoIter, w').
Proof.
  intros Hrun. apply returned_is_readable_run in Hrun as (Hread & -> & Hrun).
  rewrite (convertIterateTropterToMuco_run_readable uninit w Hread) in Hrun.
  injection Hrun as <-.
  rewrite (convertIterateTropterToMuco_run_readable uninit' w Hread).
  destruct Hread as (Hmp & Hs & Hc & Ha & _).
  do 2 f_equal. f_equal.
  - destruct (_ =? 0); [done|]. f_equal. apply tabulate_ext. intros t i Ht Hi.
    apply cell_indep. by apply Hs.
  - destruct (_ =? 0); [done|]. f_equal. apply tabulate_ext. intros t i Ht Hi.
    apply cell_indep. by apply Hc.
  - destruct (_ =? 0); [done|]. f_equal. apply tabulate_ext. intros t i Ht Hi.
    apply cell_indep. apply Ha; [done|lia].
  - destruct (_ =? 0); [done|]. f_equal. apply tabulate_ext. intros t i Ht Hi.
    apply cell_indep. apply Ha; [done|lia].
Qed.

End AnyTropterInputFacts.

(** ** Runs of [convertToTropterIterate] on any input *)

Section AnyMucoInput.
Context {V R : Type}.
Variable uninit : V.
Variable empty : MucoIterate V -> bool.
Implicit Types (u : World R (MucoIterate V)) (get : MucoIterate V -> Matrix V).

Hint Resolve readonly_read_this readonly_read_arg : readonly.

Lemma Map_Some_le (p : list V) r c m : Map p r c = Some m -> r * c <= length p.
Proof. unfold Map. by destruct (Nat.leb_spec (r * c) (length p)). Qed.

(** Mapping [numTimes] x [n] values and transposing them. *)
Lemma Map_transpose (p : list V) numTimes n :
  numTimes * n <= length p ->
  exists m, Map p numTimes n = Some m /\
    transpose uninit m =
    mkMatrix n numTimes
      (tabulate n numTimes (fun i t => cell uninit (mkMatrix numTimes n p) t i)).
Proof.
  intros Hp. exists (mkMatrix numTimes n (take (numTimes * n) p)). split.
  - unfold Map. by destruct (Nat.leb_spec (numTimes * n) (length p)); [|lia].
  - unfold transpose. simpl. f_equal. apply tabulate_ext. intros i t Hi Ht.
    unfold cell, offset. simpl. rewrite lookup_take_lt by nia. done.
Qed.

Lemma transposed_block_run get numTimes n u :
  numTimes * n <= length (elts (get (arg u))) ->
  (if n =? 0 then ret (resize uninit n numTimes)
   else p <- read_arg (fun mucoIter => Map (elts (get mucoIter)) numTimes n) ;;
        p <- defined p ;; ret (transpose uninit p)) u =
  (Ret (mkMatrix n numTimes
          (tabulate n numTimes
             (fun i t => cell uninit (mkMatrix numTimes n (elts (get (arg u)))) t i))), u).
Proof.
  intros Hp. destruct (Nat.eqb_spec n 0) as [->|Hn]; [done|].
  run_step. destruct (Map_transpose _ _ _ Hp) as (m & -> & Htr).
  simpl. unfold bind, ret. simpl. by rewrite Htr.
Qed.

Lemma assigned_block_run get numTimes n r0 rows (f : nat -> nat -> V) u :
  numTimes * n <= length (elts (get (arg u))) ->
  r0 + n <= rows ->
  (if n =? 0 then ret (mkMatrix rows numTimes (tabulate rows numTimes f))
   else p <- read_arg (fun mucoIter => Map (elts (get mucoIter)) numTimes n) ;;
        p <- defined p ;;
        defined (assign_rows uninit (mkMatrix rows numTimes (tabulate rows numTimes f))
                   r0 (transpose uninit p))) u =
  (Ret (mkMatrix rows numTimes
          (tabulate rows numTimes
             (fun i t => if (r0 <=? i) && (i <? r0 + n)
                         then cell uninit (mkMatrix numTimes n (elts (get (arg u)))) t (i - r0)
                         else f i t))), u).
Proof.
  intros Hp Hrows. destruct (Nat.eqb_spec n 0) as [->|Hn].
  - unfold ret. do 3 f_equal. apply tabulate_ext. intros i t _ _.
    by destruct (Nat.leb_spec r0 i), (Nat.ltb_spec i (r0 + 0)); [lia|..].
  - run_step. destruct (Map_transpose _ _ _ Hp) as (m & -> & Htr).
    simpl. unfold bind, ret, defined. simpl. rewrite Htr.
    by rewrite assign_rows_tabulate.
Qed.

Lemma convertToTropterIterate_run_readable u :
  let mucoIter := arg u in
  let numTimes := length (getTime mucoIter) in
  let numMultipliers := length (getMultiplierNames mucoIter) in
  let numDerivatives := length (getDerivativeNames mucoIter) in
  empty mucoIter = false ->
  Muco_readable mucoIter ->
  convertToTropterIterate uninit empty u =
  (Ret (tropter.mkIterate
          (getTime mucoIter)
          (getStateNames mucoIter)
          (getControlNames mucoIter)
          (getMultiplierNames mucoIter ++ getDerivativeNames mucoIter)
          (getParameterNames mucoIter)
          (mkMatrix (length (getStateNames mucoIter)) numTimes
             (tabulate (length (getStateNames mucoIter)) numTimes
                (fun i t =>
                   cell uninit
                     (mkMatrix numTimes (length (getStateNames mucoIter))
                        (elts (getStatesTrajectory mucoIter))) t i)))
          (mkMatrix (length (getControlNames mucoIter)) numTimes
             (tabulate (length (getControlNames mucoIter)) numTimes
                (fun i t =>
                   cell uninit
                     (mkMatrix numTimes (length (getControlNames mucoIter))
                        (elts (getControlsTrajectory mucoIter))) t i)))
          (mkMatrix (numMultipliers + numDerivatives) numTimes
             (tabulate (numMultipliers + numDerivatives) numTimes
                (fun i t =>
                   if i <? numMultipliers
                   then cell uninit
                          (mkMatrix numTimes numMultipliers
                             (elts (getMultipliersTrajectory mucoIter))) t i
                   else cell uninit
                          (mkMatrix numTimes numDerivatives
                             (elts (getDerivativesTrajectory mucoIter))) t
                          (i - numMultipliers))))
          (take (length (getParameterNames mucoIter)) (getParameters mucoIter))), u).
Proof.
  cbv zeta. intros Hne (Hs & Hc & Hm & Hd & Hp).
  unfold convertToTropterIterate. cbv zeta.
  run_step. rewrite Hne. do 6 run_step.
  run_step_by ltac:(by apply (transposed_block_run getStatesTrajectory)).
  run_step_by ltac:(by apply (transposed_block_run getControlsTrajectory)).
  rewrite resize_tabulate.
  run_step_by ltac:(apply (assigned_block_run getMultipliersTrajectory); [done|lia]).
  run_step_by ltac:(apply (assigned_block_run getDerivativesTrajectory);
                    [done|simpl; lia]).
  simpl.
  replace (length (getMultiplierNames (arg u)) + length (getDerivativeNames (arg u))
           - length (getDerivativeNames (arg u)))
    with (length (getMultiplierNames (arg u))) by lia.
  erewrite (bind_Ret _ _ u _ u); cycle 1.
  { instantiate (1 := take (length (getParameterNames (arg u))) (getParameters (arg u))).
    destruct (Nat.eqb_spec (length (getParameterNames (arg u))) 0) as [H0|H0].
    - by rewrite H0.
    - run_step. by rewrite copy_n_prefix. }
  cbv beta. unfold ret. do 4 f_equal. apply tabulate_ext. intros i t Hi Ht.
  destruct (Nat.leb_spec (length (getMultiplierNames (arg u))) i),
    (Nat.ltb_spec i (length (getMultiplierNames (arg u)))),
    (Nat.ltb_spec i (length (getMultiplierNames (arg u))
                     + length (getDerivativeNames (arg u)))); simpl; try lia; try done.
  by rewrite Nat.sub_0_r.
Qed.

Lemma transposed_block_reads get numTimes n u u' (m : Matrix V) :
  (if n =? 0 then ret (resize uninit n numTimes)
   else p <- read_arg (fun mucoIter => Map (elts (get mucoIter)) numTimes n) ;;
        p <- defined p ;; ret (transpose uninit p)) u = (Ret m, u') ->
  numTimes * n <= length (elts (get (arg u))).
Proof.
  destruct (Nat.eqb_spec n 0) as [->|Hn]; [lia|]. intros Hrun.
  apply bind_inv in Hrun as (p & u1 & [= <- <-] & Hrun).
  apply bind_inv in Hrun as (p' & u2 & Hp & Hrun).
  by apply defined_inv, proj1, Map_Some_le in Hp.
Qed.

Lemma assigned_block_reads get numTimes n r0 (adjuncts adjuncts' : Matrix V) u u' :
  (if n =? 0 then ret adjuncts
   else p <- read_arg (fun mucoIter => Map (elts (get mucoIter)) numTimes n) ;;
        p <- defined p ;;
        defined (assign_rows uninit adjuncts r0 (transpose uninit p))) u =
  (Ret adjuncts', u') ->
  numTimes * n <= length (elts (get (arg u))).
Proof.
  destruct (Nat.eqb_spec n 0) as [->|Hn]; [lia|]. intros Hrun.
  apply bind_inv in Hrun as (p & u1 & [= <- <-] & Hrun).
  apply bind_inv in Hrun as (p' & u2 & Hp & Hrun).
  by apply defined_inv, proj1, Map_Some_le in Hp.
Qed.

Lemma convertToTropterIterate_reads u u' tropIter :
  convertToTropterIterate uninit empty u = (Ret tropIter, u') ->
  empty (arg u) = false ->
  Muco_readable (arg u).
Proof.
  intros Hrun Hne. unfold convertToTropterIterate in Hrun. cbv zeta in Hrun.
  apply bind_inv_readonly in Hrun as (isEmpty & [= <-] & Hrun); [|auto with readonly].
  rewrite Hne in Hrun.
  apply bind_inv_readonly in Hrun as (time & [= <-] & Hrun); [|auto with readonly].
  apply bind_inv_readonly in Hrun as (state_names & [= <-] & Hrun); [|auto with readonly].
  apply bind_inv_readonly in Hrun as (control_names & [= <-] & Hrun); [|auto with readonly].
  apply bind_inv_readonly in Hrun as (multiplierNames & [= <-] & Hrun); [|auto with readonly].
  apply bind_inv_readonly in Hrun as (derivativeNames & [= <-] & Hrun); [|auto with readonly].
  apply bind_inv_readonly in Hrun as (parameter_names & [= <-] & Hrun); [|auto with readonly].
  apply bind_inv_readonly in Hrun as (states & Hstates & Hrun);
    [|auto 10 using readonly_Map_transpose with readonly].
  apply transposed_block_reads in Hstates.
  apply bind_inv_readonly in Hrun as (controls & Hcontrols & Hrun);
    [|auto 10 using readonly_Map_transpose with readonly].
  apply transposed_block_reads in Hcontrols.
  apply bind_inv_readonly in Hrun as (adjuncts1 & Htop & Hrun);
    [|auto 10 using readonly_Map_transpose with readonly].
  apply assigned_block_reads in Htop.
  apply bind_inv_readonly in Hrun as (adjuncts2 & Hbottom & Hrun);
    [|auto 10 using readonly_Map_transpose with readonly].
  apply assigned_block_reads in Hbottom.
  apply bind_inv in Hrun as (parameters & u1 & Hparams & Hrun).
  repeat (split; [done|]). unfold Muco_readable.
  destruct (Nat.eqb_spec (length (getParameterNames (arg u))) 0) as [->|H0]; [lia|].
  apply bind_inv in Hparams as (p & u2 & [= <- <-] & Hp).
  by apply defined_inv, proj1, copy_n_inv in Hp as [Hle _].
Qed.

End AnyMucoInput.

(** ** [convertToTropterIterate] on any input: when it returns, and what *)

Section AnyMucoInputFacts.
Context {V R : Type}.
Variable empty : MucoIterate V -> bool.
Implicit Types (u : World R (MucoIterate V)) (m : Matrix V) (uninit : V).

Lemma convertToTropterIterate_empty_run uninit u :
  empty (arg u) = true ->
  convertToTropterIterate uninit empty u = (Ret tropter.default, u).
Proof.
  intros He. unfold convertToTropterIterate. cbv zeta. run_step. by rewrite He.
Qed.

Lemma returned_is_readable_run' uninit u u' tropIter :
  convertToTropterIterate uninit empty u = (Ret tropIter, u') ->
  empty (arg u) = false ->
  Muco_readable (arg u) /\ u' = u.
Proof.
  intros Hrun Hne. split; [by eapply convertToTropterIterate_reads|].
  pose proof (convertToTropterIterate_readonly uninit empty u) as Hro.
  rewrite Hrun in Hro. simpl in Hro. by subst.
Qed.

Lemma cell_storage uninit (p : list V) numTimes n t i :
  t < numTimes -> i < n -> numTimes * n <= length p ->
  exists v, p !! (i * numTimes + t) = Some v /\
            cell uninit (mkMatrix numTimes n p) t i = v.
Proof.
  intros Ht Hi Hp. destruct (lookup_lt_is_Some_2 p (i * numTimes + t)) as [v Hv]; [nia|].
  exists v. split; [done|]. unfold cell, offset. simpl. by rewrite Hv.
Qed.

(** X7. [convertToTropterIterate] returns whenever the iterate is empty or
    everything it maps is there: the storage of each of the four matrices
    holds [numTimes] values for every name of its group, and there is a value
    for every parameter name.  The shapes the matrices themselves record are
    not looked at, so a matrix of another shape with enough storage is
    converted without an error. *)
Theorem convertToTropterIterate_returns_when_readable uninit u :
  empty (arg u) = true \/ Muco_readable (arg u) ->
  exists tropIter, convertToTropterIterate uninit empty u = (Ret tropIter, u).
Proof.
  intros Hok. destruct (empty (arg u)) eqn:He.
  - eexists. by apply convertToTropterIterate_empty_run.
  - destruct Hok as [|Hread]; [done|]. eexists.
    by apply convertToTropterIterate_run_readable.
Qed.

(** X8. Every iterate that [convertToTropterIterate] returns is well-formed,
    whatever the shapes of the input: each matrix has one row per name of its
    group (multiplier and derivative names together for [adjuncts]) and one
    column per time sample, its storage agrees with its shape, and there is
    one value per parameter name. *)
Theorem convertToTropterIterate_returns_well_formed uninit u u' tropIter :
  convertToTropterIterate uninit empty u = (Ret tropIter, u') ->
  tropter_wf tropIter.
Proof.
  intros Hrun. destruct (empty (arg u)) eqn:He.
  - rewrite convertToTropterIterate_empty_run in Hrun by done.
    injection Hrun as <- _. by repeat split.
  - pose proof (returned_is_readable_run' _ _ _ _ Hrun He) as [Hread ->].
    rewrite (convertToTropterIterate_run_readable uninit empty u He Hread) in Hrun.
    injection Hrun as <-. destruct Hread as (_ & _ & _ & _ & Hp).
    unfold tropter_wf, shaped. simpl.
    rewrite !length_tabulate, length_app, length_take. repeat split. lia.
Qed.

(** X9. Whenever [convertToTropterIterate] returns on a non-empty iterate,
    entry [(i, itime)] of a returned matrix is the value at offset
    [i * numTimes + itime] of the storage of the Muscollo matrix (of the
    derivatives matrix for the rows after the multipliers): the storage is
    read with [numTimes] rows per column, whatever number of rows the
    Muscollo matrix itself has. *)
Theorem convertToTropterIterate_returns_storage uninit u u' tropIter :
  convertToTropterIterate uninit empty u = (Ret tropIter, u') ->
  empty (arg u) = false ->
  forall itime, itime < length (getTime (arg u)) ->
    let at_offset (m : Matrix V) i := elts m !! (i * length (getTime (arg u)) + itime) in
    (forall i, i < length (getStateNames (arg u)) ->
       is_Some (at_offset (getStatesTrajectory (arg u)) i) /\
       elem (tropter.states tropIter) i itime =
         at_offset (getStatesTrajectory (arg u)) i) /\
    (forall i, i < length (getControlNames (arg u)) ->
       is_Some (at_offset (getControlsTrajectory (arg u)) i) /\
       elem (tropter.controls tropIter) i itime =
         at_offset (getControlsTrajectory (arg u)) i) /\
    (forall i, i < length (getMultiplierNames (arg u)) ->
       is_Some (at_offset (getMultipliersTrajectory (arg u)) i) /\
       elem (tropter.adjuncts tropIter) i itime =
         at_offset (getMultipliersTrajectory (arg u)) i) /\
    (forall i, i < length (getDerivativeNames (arg u)) ->
       is_Some (at_offset (getDerivativesTrajectory (arg u)) i) /\
       elem (tropter.adjuncts tropIter) (length (getMultiplierNames (arg u)) + i) itime =
         at_offset (getDerivativesTrajectory (arg u)) i).
Proof.
  intros Hrun He itime Ht at_offset. subst at_offset.
  pose proof (returned_is_readable_run' _ _ _ _ Hrun He) as [Hread ->].
  rewrite (convertToTropterIterate_run_readable uninit empty u He Hread) in Hrun.
  injection Hrun as <-. destruct Hread as (Hs & Hc & Hm & Hd & _). simpl.
  split; [|split; [|split]]; intros i Hi.
  - destruct (cell_storage uninit _ _ _ itime i Ht Hi Hs) as (v & Hv & Hcell).
    rewrite Hv. split; [by eexists|]. rewrite elem_tabulate by done. by rewrite Hcell.
  - destruct (cell_storage uninit _ _ _ itime i Ht Hi Hc) as (v & Hv & Hcell).
    rewrite Hv. split; [by eexists|]. rewrite elem_tabulate by done. by rewrite Hcell.
  - destruct (cell_storage uninit _ _ _ itime i Ht Hi Hm) as (v & Hv & Hcell).
    rewrite Hv. split; [by eexists|]. rewrite elem_tabulate by lia.
    destruct (Nat.ltb_spec i (length (getMultiplierNames (arg u)))); [|lia].
    by rewrite Hcell.
  - destruct (cell_storage uninit _ _ _ itime i Ht Hi Hd) as (v & Hv & Hcell).
    rewrite Hv. split; [by eexists|]. rewrite elem_tabulate by lia.
    destruct (Nat.ltb_spec (length (getMultiplierNames (arg u)) + i)
                (length (getMultiplierNames (arg u)))); [lia|].
    replace (length (getMultiplierNames (arg u)) + i
             - length (getMultiplierNames (arg u))) with i by lia.
    by rewrite Hcell.
Qed.

Lemma cell_storage_indep uninit uninit' (p : list V) numTimes n t i :
  t < numTimes -> i < n -> numTimes * n <= length p ->
  cell uninit (mkMatrix numTimes n p) t i = cell uninit' (mkMatrix numTimes n p) t i.
Proof.
  intros Ht Hi Hp.
  destruct (cell_storage uninit p numTimes n t i Ht Hi Hp) as (v & Hv & <-).
  destruct (cell_storage uninit' p numTimes n t i Ht Hi Hp) as (v' & Hv' & <-).
  unfold cell, offset. simpl. by rewrite Hv.
Qed.

Lemma convertToTropterIterate_fresh_storage uninit uninit' u u' tropIter :
  convertToTropterIterate uninit empty u = (Ret tropIter, u') ->
  convertToTropterIterate uninit' empty u = (Ret tropIter, u').
Proof.
  intros Hrun. destruct (empty (arg u)) eqn:He.
  - pose proof (convertToTropterIterate_readonly uninit empty u) as Hro.
    rewrite Hrun in Hro. simpl in Hro. subst u'.
    rewrite convertToTropterIterate_empty_run in Hrun by done.
    injection Hrun as <-. by apply convertToTropterIterate_empty_run.
  - pose proof (returned_is_readable_run' _ _ _ _ Hrun He) as [Hread ->].
    rewrite (convertToTropterIterate_run_readable uninit empty u He Hread) in Hrun.
    injection Hrun as <-.
    rewrite (convertToTropterIterate_run_readable uninit' empty u He Hread).
    destruct Hread as (Hs & Hc & Hm & Hd & _).
    do 2 f_equal. f_equal; f_equal; apply tabulate_ext; intros i t Hi Ht.
    + by apply cell_storage_indep.
    + by apply cell_storage_indep.
    + destruct (Nat.ltb_spec i (length (getMultiplierNames (arg u)))).
      * by apply cell_storage_indep.
      * apply cell_storage_indep; [done|lia|done].
Qed.

(** X10. No value of freshly allocated storage reaches an output: the
    matrices are resized without being initialised, but every entry is
    written before the conversion returns, so what a conversion returns does
    not depend on what the fresh storage held. *)
Theorem conversions_overwrite_fresh_storage uninit uninit'
    (w w' : World R (tropter.Iterate V)) u u' mucoIter tropIter :
  convertIterateTropterToMuco uninit w = (Ret mucoIter, w') ->
  convertToTropterIterate uninit empty u = (Ret tropIter, u') ->
  convertIterateTropterToMuco uninit' w = (Ret mucoIter, w') /\
  convertToTropterIterate uninit' empty u = (Ret tropIter, u').
Proof.
  intros HtoMuco HtoTropter. split.
  - by eapply convertIterateTropterToMuco_fresh_storage.
  - by eapply convertToTropterIterate_fresh_storage.
Qed.

End AnyMucoInputFacts.

(** ** From tropter to Muscollo and back *)

Section TropterRoundtrip.
Context {V R : Type}.
Variable uninit : V.
Variable empty : MucoIterate V -> bool.

Lemma cell_built_block numTimes n (f : nat -> nat -> V) t i :
  t < numTimes -> i < n ->
  cell uninit
    (if n =? 0 then empty_matrix else mkMatrix numTimes n (tabulate numTimes n f)) t i =
  f t i.
Proof.
  intros Ht Hi. rewrite (eqb_0_false _ _ Hi). by apply cell_tabulate.
Qed.

(** X1. For a well-formed tropter iterate and a problem whose [m_mpSum] is
    between 0 and the number of adjunct names, [convertToMucoIterate]
    returns, and unless [MucoIterate::empty()] holds of what it returns,
    [convertToTropterIterate] takes that back to the very iterate the round
    trip started from: names, time, parameters and the three matrices with
    their shapes. *)
Theorem tropter_Muco_tropter_roundtrip
    (problem : TropterProblemBase R) (tropSol : tropter.Iterate V) :
  tropter_wf tropSol ->
  (0 <= m_mpSum problem <= Z.of_nat (length (tropter.adjunct_names tropSol)))%Z ->
  exists mucoIter,
    convertToMucoIterate uninit (mkWorld problem tropSol) =
      (Ret mucoIter, mkWorld problem tropSol) /\
    (empty mucoIter = false ->
     convertToTropterIterate uninit empty (mkWorld problem mucoIter) =
       (Ret tropSol, mkWorld problem mucoIter)).
Proof.
  intros Hwf Hmp.
  destruct (convertIterateTropterToMuco_wf uninit (mkWorld problem tropSol) Hwf Hmp)
    as (mucoIter & Hrun & Hmwf).
  exists mucoIter. split; [exact Hrun|]. intros Hne.
  rewrite (convertToTropterIterate_run uninit empty (mkWorld problem mucoIter) Hne Hmwf).
  clear Hmwf Hne.
  rewrite (convertIterateTropterToMuco_run uninit (mkWorld problem tropSol) Hwf Hmp)
    in Hrun.
  injection Hrun as <-. simpl.
  destruct Hwf as (Hs & Hc & Ha & Hp).
  rewrite length_take, length_drop, take_drop.
  replace (Z.to_nat (m_mpSum problem) `min` length (tropter.adjunct_names tropSol))
    with (Z.to_nat (m_mpSum problem)) by lia.
  replace (Z.to_nat (m_mpSum problem)
           + (length (tropter.adjunct_names tropSol) - Z.to_nat (m_mpSum problem)))
    with (length (tropter.adjunct_names tropSol)) by lia.
  rewrite (tabulate_ext (length (tropter.state_names tropSol)) _ _
             (cell uninit (tropter.states tropSol)))
    by (intros; cbv beta; by rewrite cell_built_block).
  rewrite (tabulate_ext (length (tropter.control_names tropSol)) _ _
             (cell uninit (tropter.controls tropSol)))
    by (intros; cbv beta; by rewrite cell_built_block).
  rewrite (tabulate_ext (length (tropter.adjunct_names tropSol)) _ _
             (cell uninit (tropter.adjuncts tropSol))).
  - rewrite <- !(shaped_canonical uninit) by done. by destruct tropSol.
  - intros i t Hi Ht.
    destruct (Nat.ltb_spec i (Z.to_nat (m_mpSum problem))).
    + by rewrite cell_built_block.
    + rewrite cell_built_block by lia. f_equal. lia.
Qed.

End TropterRoundtrip.

(** ** The further theorems at the sample trajectories *)

Lemma sample_tall_readable : Muco_readable Sample2.tall_mucoIter.
Proof. unfold Muco_readable. simpl. lia. Qed.

Lemma tropter_Muco_tropter_roundtrip_witness :
  exists mucoIter,
    convertToMucoIterate 0%Z (mkWorld Sample.problem Sample.tropIter) =
      (Ret mucoIter, mkWorld Sample.problem Sample.tropIter) /\
    (Sample.no_samples mucoIter = false ->
     convertToTropterIterate 0%Z Sample.no_samples (mkWorld Sample.problem mucoIter) =
       (Ret Sample.tropIter, mkWorld Sample.problem mucoIter)).
Proof.
  apply (tropter_Muco_tropter_roundtrip 0%Z Sample.no_samples
           Sample.problem Sample.tropIter sample_tropter_wf).
  simpl. lia.
Defined.

Lemma convertIterateTropterToMuco_rejects_mpSum_witness :
  fst (convertIterateTropterToMuco 0%Z (mkWorld Sample2.negative_problem Sample.tropIter))
    = Throw /\
  fst (convertIterateTropterToMuco 0%Z (mkWorld Sample2.greedy_problem Sample.tropIter))
    <> Ret Sample.mucoIter.
Proof.
  split.
  - apply (convertIterateTropterToMuco_rejects_mpSum 0%Z
             (mkWorld Sample2.negative_problem Sample.tropIter)). simpl. lia.
  - apply (convertIterateTropterToMuco_rejects_mpSum 0%Z
             (mkWorld Sample2.greedy_problem Sample.tropIter)). simpl. lia.
Defined.

Lemma convertToMucoSolution_returns_well_formed_witness :
  Muco_wf Sample.mucoIter.
Proof.
  apply (convertToMucoSolution_returns_well_formed 0%Z
           (mkWorld Sample.problem Sample.tropIter)
           (mkWorld Sample.problem Sample.tropIter)).
  reflexivity.
Defined.

Lemma convertIterateTropterToMuco_keeps_names_witness :
  getMultiplierNames Sample.mucoIter ++ getDerivativeNames Sample.mucoIter =
  tropter.adjunct_names Sample.tropIter.
Proof.
  apply (convertIterateTropterToMuco_keeps_names 0%Z
           (mkWorld Sample.problem Sample.tropIter)
           (mkWorld Sample.problem Sample.tropIter) Sample.mucoIter eq_refl).
Defined.

Lemma convertIterateTropterToMuco_returns_transposed_witness :
  same_entry (getStatesTrajectory Sample.mucoIter) 1 0
    (tropter.states Sample.tropIter) 0 1.
Proof.
  apply (convertIterateTropterToMuco_returns_transposed 0%Z
           (mkWorld Sample.problem Sample.tropIter)
           (mkWorld Sample.problem Sample.tropIter) Sample.mucoIter eq_refl 1);
    simpl; lia.
Defined.

Lemma convertToTropterIterate_returns_well_formed_witness :
  exists tropIter,
    fst (convertToTropterIterate 0%Z Sample.no_samples
           (mkWorld Sample.problem Sample2.tall_mucoIter)) = Ret tropIter /\
    tropter_wf tropIter.
Proof.
  eexists. split; [reflexivity|].
  apply (convertToTropterIterate_returns_well_formed Sample.no_samples 0%Z
           (mkWorld Sample.problem Sample2.tall_mucoIter)
           (mkWorld Sample.problem Sample2.tall_mucoIter)).
  reflexivity.
Defined.

Lemma convertToTropterIterate_returns_storage_witness :
  exists tropIter,
    fst (convertToTropterIterate 0%Z Sample.no_samples
           (mkWorld Sample.problem Sample2.tall_mucoIter)) = Ret tropIter /\
    elem (tropter.states tropIter) 1 0 = Some 12%Z.
Proof.
  eexists. split; [reflexivity|].
  refine (proj2 (proj1 (convertToTropterIterate_returns_storage Sample.no_samples 0%Z
           (mkWorld Sample.problem Sample2.tall_mucoIter)
           (mkWorld Sample.problem Sample2.tall_mucoIter) _ eq_refl eq_refl 0 _) 1 _));
    simpl; lia.
Defined.

Lemma conversions_overwrite_fresh_storage_witness :
  convertIterateTropterToMuco 99%Z (mkWorld Sample.problem Sample.tropIter) =
    (Ret Sample.mucoIter, mkWorld Sample.problem Sample.tropIter) /\
  convertToTropterIterate 99%Z Sample.no_samples
    (mkWorld Sample.problem Sample.mucoIter) =
    (Ret Sample.tropIter, mkWorld Sample.problem Sample.mucoIter).
Proof.
  apply (conversions_overwrite_fresh_storage Sample.no_samples 0%Z 99%Z
           (mkWorld Sample.problem Sample.tropIter) _
           (mkWorld Sample.problem Sample.mucoIter) _
           Sample.mucoIter Sample.tropIter eq_refl eq_refl).
Defined.

Lemma sample_wide_readable : tropter_readable 1 Sample2.wide_tropIter.
Proof.
  split; [simpl; lia|].
  repeat split; try (simpl; lia);
    intros itime i Ht Hi; simpl in Ht, Hi;
    destruct itime as [|[|itime]], i as [|[|i]]; try lia; by eexists.
Qed.

Lemma convertIterateTropterToMuco_returns_when_readable_witness :
  exists mucoIter,
    convertIterateTropterToMuco 0%Z (mkWorld Sample.problem Sample2.wide_tropIter) =
    (Ret mucoIter, mkWorld Sample.problem Sample2.wide_tropIter).
Proof.
  apply (convertIterateTropterToMuco_returns_when_readable 0%Z
           (mkWorld Sample.problem Sample2.wide_tropIter)).
  exact sample_wide_readable.
Defined.

Lemma convertToTropterIterate_returns_when_readable_witness :
  exists tropIter,
    convertToTropterIterate 0%Z Sample.no_samples
      (mkWorld Sample.problem Sample2.tall_mucoIter) =
    (Ret tropIter, mkWorld Sample.problem Sample2.tall_mucoIter).
Proof.
  apply (convertToTropterIterate_returns_when_readable Sample.no_samples 0%Z
           (mkWorld Sample.problem Sample2.tall_mucoIter)).
  right. exact sample_tall_readable.
Defined.

(** ** Purity *)

Section PureConversions.
Context {V R : Type}.
Variable empty : MucoIterate V -> bool.

(** C8. Both conversions are pure.  Two runs that share the solver object
    and the input, and nothing else (the storage each run allocates may hold
    anything), return the same result: whatever one run returns, the other
    returns too.  And every run, returning or not, leaves the solver object
    and the input iterate as it found them.  (An outcome [Undefined] stands
    for a run that reads outside a container, of which C++ promises
    nothing.) *)
Theorem conversions_are_pure (uninit uninit' : V)
    (w1 w2 : World R (tropter.Iterate V)) (u1 u2 : World R (MucoIterate V)) :
  this w1 = this w2 -> arg w1 = arg w2 ->
  this u1 = this u2 -> arg u1 = arg u2 ->
  ((forall mucoIter w',
      convertIterateTropterToMuco uninit w1 = (Ret mucoIter, w') ->
      convertIterateTropterToMuco uninit' w2 = (Ret mucoIter, w2)) /\
   snd (convertIterateTropterToMuco uninit w1) = w1 /\
   snd (convertIterateTropterToMuco uninit' w2) = w2) /\
  ((forall tropIter u',
      convertToTropterIterate uninit empty u1 = (Ret tropIter, u') ->
      convertToTropterIterate uninit' empty u2 = (Ret tropIter, u2)) /\
   snd (convertToTropterIterate uninit empty u1) = u1 /\
   snd (convertToTropterIterate uninit' empty u2) = u2).
Proof.
  intros Hthis Harg Hthis' Harg'.
  assert (w1 = w2) as <- by (destruct w1, w2; simpl in *; congruence).
  assert (u1 = u2) as <- by (destruct u1, u2; simpl in *; congruence).
  split; (split; [|split]);
    try apply convertIterateTropterToMuco_readonly;
    try apply convertToTropterIterate_readonly.
  - intros mucoIter w' Hrun.
    pose proof (convertIterateTropterToMuco_readonly uninit w1) as Hro.
    rewrite Hrun in Hro. simpl in Hro. subst w'.
    by apply (convertIterateTropterToMuco_fresh_storage uninit).
  - intros tropIter u' Hrun.
    pose proof (convertToTropterIterate_readonly uninit empty u1) as Hro.
    rewrite Hrun in Hro. simpl in Hro. subst u'.
    by apply (convertToTropterIterate_fresh_storage empty uninit).
Qed.

End PureConversions.

Lemma conversions_are_pure_witness :
  (convertIterateTropterToMuco 99%Z (mkWorld Sample.problem Sample.tropIter) =
     (Ret Sample.mucoIter, mkWorld Sample.problem Sample.tropIter) /\
   snd (convertIterateTropterToMuco 0%Z (mkWorld Sample.problem Sample.tropIter)) =
     mkWorld Sample.problem Sample.tropIter) /\
  (convertToTropterIterate 99%Z Sample.no_samples
     (mkWorld Sample.problem Sample.mucoIter) =
     (Ret Sample.tropIter, mkWorld Sample.problem Sample.mucoIter) /\
   snd (convertToTropterIterate 0%Z Sample.no_samples
          (mkWorld Sample.problem Sample.mucoIter)) =
     mkWorld Sample.problem Sample.mucoIter).
Proof.
  destruct (conversions_are_pure Sample.no_samples 0%Z 99%Z
              (mkWorld Sample.problem Sample.tropIter)
              (mkWorld Sample.problem Sample.tropIter)
              (mkWorld Sample.problem Sample.mucoIter)
              (mkWorld Sample.problem Sample.mucoIter)
              eq_refl eq_refl eq_refl eq_refl)
    as ((Hsame & Hro & _) & (Hsame' & Hro' & _)).
  split; split.
  - exact (Hsame _ _ eq_refl).
  - exact Hro.
  - exact (Hsame' _ _ eq_refl).
  - exact Hro'.
Defined.
